(** * Subdomain admission control: a shallow embedding of

    - [backend/app/services/security_service.py]   (class [SecurityService])
    - [backend/app/services/secure_deployment_service.py]
      (class [SecureDeploymentService])

    Python text is a list of Unicode code points, integers are [Z], the
    instance dictionaries are finite maps or insertion-ordered association
    lists, and the bodies of the methods run in a state-and-exception monad
    over the two service instances.  As in Python, whatever a method wrote
    before it raised stays written. *)

From Stdlib Require Import ZArith NArith List String Ascii Bool Lia.
From stdpp Require Import base option list gmap.
Import ListNotations.

Local Open Scope Z_scope.

(** ** Text *)

(** A Python [str]: its code points in order. *)
Abbreviation str := (list N).

(** A literal of the source, all of whose characters are Basic Latin. *)
Definition py (s : string) : str := map N_of_ascii (list_ascii_of_string s).

Module Str.

(** [s.startswith(p)] *)
Fixpoint startswith (p s : str) : bool :=
  match p, s with
  | [], _ => true
  | _ :: _, [] => false
  | a :: p', b :: s' => N.eqb a b && startswith p' s'
  end.

(** [p in s]: [p] occurs in [s] as a run of consecutive code points. *)
Fixpoint contains (p s : str) : bool :=
  startswith p s ||
  match s with
  | [] => false
  | _ :: s' => contains p s'
  end.

(** [s.count(c)] for a single character [c]. *)
Definition count_char (c : N) (s : str) : nat :=
  List.length (List.filter (N.eqb c) s).

(** Number of positions of [s] at which [p] starts. *)
Fixpoint occurrences (p s : str) : nat :=
  ((if startswith p s then 1 else 0) +
   match s with
   | [] => 0
   | _ :: s' => occurrences p s'
   end)%nat.

Definition is_lower (c : N) : bool := (97 <=? c)%N && (c <=? 122)%N.
Definition is_upper (c : N) : bool := (65 <=? c)%N && (c <=? 90)%N.
Definition is_digit (c : N) : bool := (48 <=? c)%N && (c <=? 57)%N.
Definition hyphen : N := 45%N.
Definition newline : N := 10%N.

(** The class [[a-z0-9]] and the class [[a-z0-9-]]. *)
Definition is_alnum (c : N) : bool := is_lower c || is_digit c.
Definition is_label_char (c : N) : bool := is_alnum c || N.eqb c hyphen.

(** [s.lower()], code point by code point.  It is exact on every code
    point whose lower case contains a Basic Latin character: [A]-[Z],
    U+0130 (which becomes [i] followed by U+0307) and U+212A (which
    becomes [k]).  Every other code point is kept as it is; its real lower
    case is again outside Basic Latin, and the callers below only look
    for Basic Latin text in the result. *)
Definition lower_char (c : N) : str :=
  if is_upper c then [(c + 32)%N]
  else if N.eqb c 304 then [105%N; 775%N]
  else if N.eqb c 8490 then [107%N]
  else [c].

Definition lower (s : str) : str := flat_map lower_char s.

(** [re.search(r'[0-9]', s)] finds something. *)
Definition has_digit (s : str) : bool := existsb is_digit s.

(** [re.sub(r'[^a-z0-9]', '', s)] *)
Definition strip_non_alnum (s : str) : str := List.filter is_alnum s.

(** The whole of [s] is [[a-z0-9]([a-z0-9-]*[a-z0-9])?]. *)
Definition is_label (s : str) : bool :=
  match s with
  | [] => false
  | c :: rest =>
      is_alnum c &&
      match rest with
      | [] => true
      | _ => forallb is_label_char rest && is_alnum (List.last rest 0%N)
      end
  end.

(** [re.match(r'^[a-z0-9]([a-z0-9-]*[a-z0-9])?$', s)] succeeds.  Without
    [re.MULTILINE] the [$] also matches just before a line feed that ends
    the text. *)
Definition match_label (s : str) : bool :=
  is_label s ||
  match List.rev s with
  | c :: r => N.eqb c newline && is_label (List.rev r)
  | [] => false
  end.

End Str.

(** ** Enumerations and the audit record *)

Inductive SecurityLevel := LOW | MEDIUM | HIGH | CRITICAL.

Definition SecurityLevel_value (l : SecurityLevel) : string :=
  match l with
  | LOW => "low" | MEDIUM => "medium" | HIGH => "high" | CRITICAL => "critical"
  end.

Inductive ThreatType :=
  | SUBDOMAIN_TAKEOVER | XSS_ATTEMPT | SQL_INJECTION
  | PHISHING_ATTEMPT | RATE_LIMIT_VIOLATION | SUSPICIOUS_ACTIVITY.

Definition ThreatType_value (t : ThreatType) : string :=
  match t with
  | SUBDOMAIN_TAKEOVER => "subdomain_takeover"
  | XSS_ATTEMPT => "xss_attempt"
  | SQL_INJECTION => "sql_injection"
  | PHISHING_ATTEMPT => "phishing_attempt"
  | RATE_LIMIT_VIOLATION => "rate_limit_violation"
  | SUSPICIOUS_ACTIVITY => "suspicious_activity"
  end.

(** Values stored in the free-form [metadata] dictionaries. *)
#[warnings="-register-all"]
Inductive pyval :=
  | VInt (z : Z)
  | VStr (s : str)
  | VBool (b : bool)
  | VDict (entries : list (string * pyval)).

Abbreviation pydict := (list (string * pyval)).

(** The dataclass [SecurityAudit]. *)
Record SecurityAudit := {
  event_type : string;
  description : str;
  severity : SecurityLevel;
  client_ip : str;
  subdomain : option str;
  threat_type : option ThreatType;
  metadata : option pydict
}.

(** One dictionary of [security_audit_log].  [timestamp] is the reading of
    the clock rather than its ISO text. *)
Record audit_entry := {
  e_timestamp : Z;
  e_event_type : string;
  e_description : str;
  e_severity : string;
  e_client_ip : str;
  e_subdomain : option str;
  e_threat_type : option string;
  e_metadata : option pydict
}.

(** ** Exceptions *)

Inductive exn :=
  | TypeError (msg : str)
  | AttributeError (msg : str)
  | KeyError (key : str)
  | ZeroDivisionError (msg : str)
  | OverflowError (msg : str).

(** [str(e)]; for a [KeyError] the key between quotes. *)
Definition exn_str (e : exn) : str :=
  match e with
  | TypeError m | AttributeError m | ZeroDivisionError m
  | OverflowError m => m
  | KeyError k => py "'" ++ k ++ py "'"
  end.

Inductive outcome (A : Type) :=
  | Ok (a : A)
  | Raise (e : exn).
Arguments Ok {A} a.
Arguments Raise {A} e.

(** [SecurityAudit(...)] as the dataclass generates it: [event_type],
    [description], [severity] and [client_ip] have no default, the other
    three default to [None].  An argument that the call site does not pass
    is [None] here; leaving out [client_ip] is a [TypeError]. *)
Definition SecurityAudit_init
    (event_type : string) (description : str) (severity : SecurityLevel)
    (client_ip : option str) (subdomain : option str)
    (threat_type : option ThreatType) (metadata : option pydict)
  : outcome SecurityAudit :=
  match client_ip with
  | Some ip =>
      Ok {| event_type := event_type; description := description;
            severity := severity; client_ip := ip; subdomain := subdomain;
            threat_type := threat_type; metadata := metadata |}
  | None =>
      Raise (TypeError (py
        "SecurityAudit.__init__() missing 1 required positional argument: 'client_ip'"))
  end.

(** ** The two service instances and the world around them *)

(** A [datetime] is a number of microseconds; [timedelta(hours=1)]. *)
Definition one_hour : Z := 3600000000.

(** The value stored under a name in [active_subdomains]. *)
Record subdomain_info := {
  i_project_id : str;
  i_created_at : Z;
  i_security_score : Z;
  i_ssl_configured : bool;
  i_security_headers : list (string * string)
}.

(** [rate_limit_store] and [security_audit_log] belong to the global
    [security_service], [active_subdomains] to the global
    [secure_deployment_service] (its [deployment_configs] is never read or
    written).  [clock] and [entropy] are what the process observes from
    outside: the [n]-th call of [datetime.now()] returns [clock n], the
    [n]-th call of [secrets.token_urlsafe(k)] returns [entropy n k]. *)
Record World := {
  rate_limit_store : gmap str (list Z);
  security_audit_log : list audit_entry;
  active_subdomains : list (str * subdomain_info);
  clock : nat -> Z;
  ticks : nat;
  entropy : nat -> nat -> str;
  draws : nat
}.

Definition set_rate_limit_store (f : gmap str (list Z) -> gmap str (list Z))
    (w : World) : World :=
  {| rate_limit_store := f (rate_limit_store w);
     security_audit_log := security_audit_log w;
     active_subdomains := active_subdomains w;
     clock := clock w; ticks := ticks w;
     entropy := entropy w; draws := draws w |}.

Definition set_security_audit_log (f : list audit_entry -> list audit_entry)
    (w : World) : World :=
  {| rate_limit_store := rate_limit_store w;
     security_audit_log := f (security_audit_log w);
     active_subdomains := active_subdomains w;
     clock := clock w; ticks := ticks w;
     entropy := entropy w; draws := draws w |}.

Definition set_active_subdomains
    (f : list (str * subdomain_info) -> list (str * subdomain_info))
    (w : World) : World :=
  {| rate_limit_store := rate_limit_store w;
     security_audit_log := security_audit_log w;
     active_subdomains := f (active_subdomains w);
     clock := clock w; ticks := ticks w;
     entropy := entropy w; draws := draws w |}.

Definition tick (w : World) : World :=
  {| rate_limit_store := rate_limit_store w;
     security_audit_log := security_audit_log w;
     active_subdomains := active_subdomains w;
     clock := clock w; ticks := S (ticks w);
     entropy := entropy w; draws := draws w |}.

Definition draw (w : World) : World :=
  {| rate_limit_store := rate_limit_store w;
     security_audit_log := security_audit_log w;
     active_subdomains := active_subdomains w;
     clock := clock w; ticks := ticks w;
     entropy := entropy w; draws := S (draws w) |}.

(** ** The monad of method bodies *)

Definition M (A : Type) : Type := World -> outcome A * World.

Definition ret {A} (a : A) : M A := fun w => (Ok a, w).

Definition bind {A B} (m : M A) (k : A -> M B) : M B :=
  fun w =>
    match m w with
    | (Ok a, w') => k a w'
    | (Raise e, w') => (Raise e, w')
    end.

Definition raise {A} (e : exn) : M A := fun w => (Raise e, w).

(** An expression that either has a value or raises, run as a statement. *)
Definition lift {A} (o : outcome A) : M A := fun w => (o, w).

(** [try: body  except Exception as e: handler e] *)
Definition try_except {A} (body : M A) (handler : exn -> M A) : M A :=
  fun w =>
    match body w with
    | (Ok a, w') => (Ok a, w')
    | (Raise e, w') => handler e w'
    end.

Definition get : M World := fun w => (Ok w, w).
Definition modify (f : World -> World) : M unit := fun w => (Ok tt, f w).

Declare Scope py_scope.
Delimit Scope py_scope with py.
Notation "x <- m ;; k" := (bind m (fun x => k))
  (at level 100, m at next level, right associativity) : py_scope.
Notation "m ;; k" := (bind m (fun _ => k))
  (at level 100, right associativity) : py_scope.
Local Open Scope py_scope.

(** [datetime.now()] *)
Definition datetime_now : M Z :=
  fun w => (Ok (clock w (ticks w)), tick w).

(** [secrets.token_urlsafe(nbytes)] *)
Definition token_urlsafe (nbytes : nat) : M str :=
  fun w => (Ok (entropy w (draws w) nbytes), draw w).

Arguments py : simpl never.

(** ** Dictionaries that keep insertion order *)

Module Dict.
Section Ops.
Context {V : Type}.

Definition key_eqb (a b : str) : bool := bool_decide (a = b).

(** [d.get(k)] *)
Fixpoint lookup (k : str) (d : list (str * V)) : option V :=
  match d with
  | [] => None
  | (k', v) :: d' => if key_eqb k k' then Some v else lookup k d'
  end.

(** [k in d] *)
Definition mem (k : str) (d : list (str * V)) : bool :=
  match lookup k d with Some _ => true | None => false end.

(** [d[k] = v]: an existing key keeps its place, a new one goes last. *)
Fixpoint set (k : str) (v : V) (d : list (str * V)) : list (str * V) :=
  match d with
  | [] => [(k, v)]
  | (k', v') :: d' =>
      if key_eqb k k' then (k, v) :: d' else (k', v') :: set k v d'
  end.

(** [del d[k]] where [k in d]. *)
Fixpoint remove (k : str) (d : list (str * V)) : list (str * V) :=
  match d with
  | [] => []
  | (k', v') :: d' =>
      if key_eqb k k' then d' else (k', v') :: remove k d'
  end.

Definition keys (d : list (str * V)) : list str := map fst d.
Definition values (d : list (str * V)) : list V := map snd d.
End Ops.
End Dict.

(** ** [SecurityService] *)

(** The dictionaries that [validate_subdomain_security] and
    [_validate_input] return; a key that a dictionary does not have is
    [None]. *)
Record validation_result := {
  valid : bool;
  error : option str;
  security_level : option SecurityLevel;
  threat_detected : option bool;
  security_score : option Z;
  recommendations : option (list string)
}.

(** [d[key]] on such a dictionary. *)
Definition getitem {A} (key : string) (field : option A) : M A :=
  match field with
  | Some a => ret a
  | None => raise (KeyError (py key))
  end.

(** A rejection: [valid], [error], [security_level] and, where the source
    writes it, [threat_detected]. *)
Definition rejection (msg : string) (level : SecurityLevel)
    (threat : option bool) : validation_result :=
  {| valid := false; error := Some (py msg); security_level := Some level;
     threat_detected := threat; security_score := None;
     recommendations := None |}.

Definition blocked_patterns : list str :=
  map py
    ["admin"; "api"; "www"; "mail"; "ftp"; "ssh"; "telnet";
     "root"; "system"; "config"; "backup"; "test"; "dev";
     "staging"; "beta"; "alpha"; "local"; "localhost";
     "secure"; "login"; "auth"; "oauth"; "payment";
     "bank"; "paypal"; "stripe"; "credit"; "card"]%string.

Definition suspicious_chars : list str :=
  map py
    ["--"; "/*"; "*/"; "union"; "select"; "insert"; "update";
     "delete"; "drop"; "create"; "alter"; "exec"; "eval";
     "script"; "javascript"; "vbscript"; "onload"; "onerror"]%string.

Definition _log_security_audit (audit : SecurityAudit) : M unit :=
  timestamp <- datetime_now ;;
  modify (set_security_audit_log (fun log => log ++
    [{| e_timestamp := timestamp;
        e_event_type := event_type audit;
        e_description := description audit;
        e_severity := SecurityLevel_value (severity audit);
        e_client_ip := client_ip audit;
        e_subdomain := subdomain audit;
        e_threat_type := option_map ThreatType_value (threat_type audit);
        e_metadata := metadata audit |}])).

(** [self.rate_limit_store[client_ip]] *)
Definition rate_limit_store_getitem (client_ip : str) : M (list Z) :=
  w <- get ;;
  match rate_limit_store w !! client_ip with
  | Some times => ret times
  | None => raise (KeyError client_ip)
  end.

Definition _check_rate_limit (client_ip : str) : M bool :=
  current_time <- datetime_now ;;
  w <- get ;;
  (match rate_limit_store w !! client_ip with
   | None => modify (set_rate_limit_store <[client_ip := []]>)
   | Some _ => ret tt
   end) ;;
  old <- rate_limit_store_getitem client_ip ;;
  modify (set_rate_limit_store
    <[client_ip :=
        List.filter (fun time => current_time - time <? one_hour) old]>) ;;
  kept <- rate_limit_store_getitem client_ip ;;
  if (5 <=? List.length kept)%nat then
    audit <- lift (SecurityAudit_init "rate_limit_violation"
               (py "Rate limit exceeded for IP: " ++ client_ip) HIGH
               (Some client_ip) None (Some RATE_LIMIT_VIOLATION) None) ;;
    _log_security_audit audit ;;
    ret false
  else
    times <- rate_limit_store_getitem client_ip ;;
    modify (set_rate_limit_store <[client_ip := times ++ [current_time]]>) ;;
    ret true.

Definition _validate_input (subdomain_name : str) : M validation_result :=
  if (List.length subdomain_name <? 3)%nat
     || (63 <? List.length subdomain_name)%nat then
    ret (rejection "Subdomain must be between 3 and 63 characters."
           MEDIUM None)
  else if negb (Str.match_label subdomain_name) then
    ret (rejection
           "Subdomain must contain only lowercase letters, numbers, and hyphens."
           MEDIUM None)
  else
    match List.find (fun suspicious =>
                  Str.contains suspicious (Str.lower subdomain_name))
               suspicious_chars with
    | Some suspicious =>
        audit <- lift (SecurityAudit_init "suspicious_input"
                   (py "Suspicious characters detected: " ++ suspicious) HIGH
                   None (Some subdomain_name) (Some XSS_ATTEMPT) None) ;;
        _log_security_audit audit ;;
        ret (rejection "Subdomain contains suspicious characters."
               HIGH (Some true))
    | None =>
        ret {| valid := true; error := None; security_level := None;
               threat_detected := None; security_score := None;
               recommendations := None |}
    end.

(** The patterns are plain words, so [re.search] is a substring test. *)
Definition _check_blocked_patterns (subdomain_name : str) : M bool :=
  match List.find (fun pattern =>
                Str.contains pattern (Str.lower subdomain_name))
             blocked_patterns with
  | Some pattern =>
      audit <- lift (SecurityAudit_init "blocked_pattern"
                 (py "Blocked pattern detected: " ++ pattern) MEDIUM
                 None (Some subdomain_name) None None) ;;
      _log_security_audit audit ;;
      ret true
  | None => ret false
  end.

Definition suspicious_unicode : list N :=
  [1072; 1077; 1086; 1088; 1089; 1091;
   1093; 1108; 1110; 1111; 1169; 1231]%N.

Definition _detect_homograph_attack (subdomain_name : str) : M bool :=
  match List.find (fun char => Str.contains [char] subdomain_name)
             suspicious_unicode with
  | Some _ =>
      audit <- lift (SecurityAudit_init "homograph_attack"
                 (py "Potential homograph attack detected") HIGH
                 None (Some subdomain_name) (Some PHISHING_ATTEMPT) None) ;;
      _log_security_audit audit ;;
      ret true
  | None => ret false
  end.

Definition low_effort_patterns : list str :=
  map py ["test"; "demo"; "temp"; "tmp"]%string.

Definition _calculate_security_score (subdomain_name : str) : Z :=
  let score := 100 in
  let score :=
    if (List.length subdomain_name <? 5)%nat then score - 10 else score in
  let score :=
    if negb (Str.has_digit subdomain_name) then score - 5 else score in
  let score :=
    if (2 <? Str.count_char Str.hyphen subdomain_name)%nat
    then score - 15 else score in
  let score :=
    fold_left (fun score pattern =>
                 if Str.contains pattern subdomain_name
                 then score - 20 else score)
              low_effort_patterns score in
  Z.max 0 score.

Definition _get_security_level (score : Z) : SecurityLevel :=
  if 80 <=? score then LOW
  else if 60 <=? score then MEDIUM
  else if 40 <=? score then HIGH
  else CRITICAL.

Definition _get_security_recommendations (score : Z) : list string :=
  (if score <? 80
   then ["Consider using a more complex subdomain name"%string] else []) ++
  (if score <? 60
   then ["Avoid using common words or patterns"%string] else []) ++
  (if score <? 40
   then ["Security review recommended before deployment"%string] else []).

Definition validate_subdomain_security (subdomain_name client_ip : str)
  : M validation_result :=
  try_except
    (allowed <- _check_rate_limit client_ip ;;
     if negb allowed then
       ret (rejection "Rate limit exceeded. Please try again later."
              CRITICAL (Some true))
     else
       validation_result <- _validate_input subdomain_name ;;
       if negb (valid validation_result) then ret validation_result
       else
         blocked <- _check_blocked_patterns subdomain_name ;;
         if blocked then
           ret (rejection "Subdomain name contains blocked patterns."
                  HIGH (Some true))
         else
           homograph <- _detect_homograph_attack subdomain_name ;;
           if homograph then
             ret (rejection "Subdomain name contains suspicious characters."
                    HIGH (Some true))
           else
             let security_score :=
               _calculate_security_score subdomain_name in
             audit <- lift (SecurityAudit_init "subdomain_validation"
                        (py "Subdomain validation for: " ++ subdomain_name)
                        LOW (Some client_ip) (Some subdomain_name) None
                        (Some [("security_score"%string,
                                VInt security_score)])) ;;
             _log_security_audit audit ;;
             ret {| valid := true; error := None;
                    security_score := Some security_score;
                    security_level :=
                      Some (_get_security_level security_score);
                    recommendations :=
                      Some (_get_security_recommendations security_score);
                    threat_detected := None |})
    (fun e =>
       ret (rejection "Security validation failed." CRITICAL (Some true))).

(** What [create_isolated_environment] returns. *)
Record isolated_env := {
  env_success : bool;
  env_error : option str;
  isolated_path : option str;
  security_token : option str;
  env_security_headers : option (list (string * string));
  resource_limits : option pydict
}.

Definition create_isolated_environment (deployment_path project_id : str)
  : M isolated_env :=
  try_except
    (security_token <- token_urlsafe 32 ;;
     let isolated_path := deployment_path ++ py "/isolated/" ++ project_id in
     let security_headers :=
       [("X-Frame-Options", "DENY");
        ("X-Content-Type-Options", "nosniff");
        ("X-XSS-Protection", "1; mode=block");
        ("Referrer-Policy", "strict-origin-when-cross-origin");
        ("Content-Security-Policy",
         "default-src 'self'; script-src 'self' 'unsafe-inline'");
        ("Strict-Transport-Security",
         "max-age=31536000; includeSubDomains")]%string in
     let resource_limits :=
       [("max_memory", VStr (py "512MB")); ("max_cpu", VStr (py "50%"));
        ("max_connections", VInt 100); ("timeout", VInt 30)]%string in
     audit <- lift (SecurityAudit_init "environment_creation"
                (py "Isolated environment created for project: "
                 ++ project_id)
                LOW None None None
                (Some [("isolated_path", VStr isolated_path);
                       ("security_token",
                        VStr (firstn 8 security_token ++ py "..."));
                       ("resource_limits", VDict resource_limits)]%string)) ;;
     _log_security_audit audit ;;
     ret {| env_success := true; env_error := None;
            isolated_path := Some isolated_path;
            security_token := Some security_token;
            env_security_headers := Some security_headers;
            resource_limits := Some resource_limits |})
    (fun e =>
       ret {| env_success := false; env_error := Some (exn_str e);
              isolated_path := None; security_token := None;
              env_security_headers := None; resource_limits := None |}).

(** The simulated certificate of [_get_certificate_info]. *)
Record certificate_info := {
  cert_valid : bool;
  days_until_expiry : Z;
  cipher_strength : Z;
  san_valid : bool;
  weak_protocols : list string;
  issuer : str;
  subject : str
}.

Definition _get_certificate_info (domain : str) : M certificate_info :=
  ret {| cert_valid := true; days_until_expiry := 45;
         cipher_strength := 256; san_valid := true; weak_protocols := [];
         issuer := py "Let's Encrypt"; subject := py "*." ++ domain |}.

(** The dictionary [security_checks], its five keys in order. *)
Record security_checks := {
  certificate_valid : bool;
  expires_soon : bool;
  strong_cipher : bool;
  proper_san : bool;
  no_weak_protocols : bool
}.

Definition checks_values (c : security_checks) : list bool :=
  [certificate_valid c; expires_soon c; strong_cipher c; proper_san c;
   no_weak_protocols c].

Definition _get_ssl_recommendations (c : security_checks) : list string :=
  (if negb (certificate_valid c)
   then ["SSL certificate is invalid or expired"%string] else []) ++
  (if expires_soon c
   then ["SSL certificate expires soon - renewal needed"%string] else []) ++
  (if negb (strong_cipher c)
   then ["Weak cipher suite detected"%string] else []) ++
  (if negb (proper_san c)
   then ["Subject Alternative Name validation failed"%string] else []) ++
  (if no_weak_protocols c
   then ["Weak SSL/TLS protocols detected"%string] else []).

(** What [verify_wildcard_ssl_security] returns. *)
Record ssl_verification := {
  secure : bool;
  v_error : option str;
  v_security_score : option Z;
  v_certificate_info : option certificate_info;
  v_security_checks : option security_checks;
  v_recommendations : option (list string)
}.

(** [sum(security_checks.values()) / len(security_checks) * 100] is a float;
    with five checks of which [k] hold it is the whole number [20 * k], and
    it is kept as that integer.  Of the [metadata] of the audit only
    [security_score] is kept. *)
Definition verify_wildcard_ssl_security (domain : str) : M ssl_verification :=
  try_except
    (cert_info <- _get_certificate_info domain ;;
     let security_checks :=
       {| certificate_valid := cert_valid cert_info;
          expires_soon := days_until_expiry cert_info <? 30;
          strong_cipher := 128 <=? cipher_strength cert_info;
          proper_san := san_valid cert_info;
          no_weak_protocols :=
            match weak_protocols cert_info with [] => true | _ => false end
       |} in
     let security_score :=
       Z.of_nat (List.length (List.filter id (checks_values security_checks)))
       * 100 / Z.of_nat (List.length (checks_values security_checks)) in
     audit <- lift (SecurityAudit_init "ssl_verification"
                (py "SSL verification for domain: " ++ domain)
                (_get_security_level security_score)
                None None None
                (Some [("security_score", VInt security_score)]%string)) ;;
     _log_security_audit audit ;;
     ret {| secure := 80 <=? security_score; v_error := None;
            v_security_score := Some security_score;
            v_certificate_info := Some cert_info;
            v_security_checks := Some security_checks;
            v_recommendations :=
              Some (_get_ssl_recommendations security_checks) |})
    (fun e =>
       ret {| secure := false; v_error := Some (exn_str e);
              v_security_score := None; v_certificate_info := None;
              v_security_checks := None; v_recommendations := None |}).

(** ** [SecureDeploymentService] *)

Definition base_domain : str := py "webai.studio".
Definition wildcard_cert_domain : str := py "*." ++ base_domain.

(** The module imports the instance:
    [from .security_service import security_service].  These are the names
    that instance answers to: what [__init__] sets and what the class
    defines.  [secrets] and [SecurityAudit] are globals of the module
    [security_service.py], not attributes of the instance. *)
Definition SecurityService_attributes : list string :=
  ["blocked_patterns"; "suspicious_chars"; "rate_limit_store";
   "security_audit_log"; "validate_subdomain_security"; "_check_rate_limit";
   "_validate_input"; "_check_blocked_patterns"; "_detect_homograph_attack";
   "_calculate_security_score"; "_get_security_level";
   "_get_security_recommendations"; "create_isolated_environment";
   "verify_wildcard_ssl_security"; "_get_certificate_info";
   "_get_ssl_recommendations"; "_log_security_audit"; "get_security_report";
   "_get_threat_summary"]%string.

(** [security_service.<name>].  Calls of the instance's own methods are
    written as calls of the definitions above; the lookup is spelled out
    where the source reaches for something else. *)
Definition security_service_getattr (name : string) : M unit :=
  if existsb (String.eqb name) SecurityService_attributes then ret tt
  else raise (AttributeError
                (py "'SecurityService' object has no attribute '"
                 ++ py name ++ py "'")).

Definition _generate_secure_subdomain (business_name : str) : M str :=
  let clean_name := Str.strip_non_alnum (Str.lower business_name) in
  security_service_getattr "secrets" ;;
  token <- token_urlsafe 4 ;;
  let random_suffix := firstn 6 token in
  let clean_name :=
    if (List.length clean_name <? 3)%nat then py "site" ++ clean_name
    else clean_name in
  let subdomain := clean_name ++ random_suffix in
  w <- get ;;
  let subdomain :=
    if Dict.mem subdomain (active_subdomains w)
    then clean_name ++ random_suffix ++ py "2"
    else subdomain in
  ret subdomain.

(** The intent [ssl_config] of [_configure_wildcard_ssl]. *)
Record ssl_config := {
  certificate_domain : str;
  cfg_subdomain : str;
  full_domain : str;
  ssl_protocols : list string;
  cipher_suite : string;
  hsts_enabled : bool;
  hsts_max_age : Z;
  include_subdomains : bool
}.

(** What [_configure_wildcard_ssl] returns. *)
Record ssl_result := {
  ssl_success : bool;
  ssl_error : option str;
  ssl_recommendations : option (list string);
  ssl_ssl_config : option ssl_config;
  ssl_security_score : option Z
}.

Definition _configure_wildcard_ssl (subdomain_name : str) : M ssl_result :=
  try_except
    (ssl_verification <- verify_wildcard_ssl_security base_domain ;;
     if negb (secure ssl_verification) then
       ret {| ssl_success := false;
              ssl_error := Some (py "SSL certificate validation failed");
              ssl_recommendations :=
                Some (default [] (v_recommendations ssl_verification));
              ssl_ssl_config := None; ssl_security_score := None |}
     else
       let ssl_config :=
         {| certificate_domain := wildcard_cert_domain;
            cfg_subdomain := subdomain_name;
            full_domain := subdomain_name ++ py "." ++ base_domain;
            ssl_protocols := ["TLSv1.2"; "TLSv1.3"]%string;
            cipher_suite := "ECDHE-RSA-AES256-GCM-SHA384";
            hsts_enabled := true;
            hsts_max_age := 31536000;
            include_subdomains := true |} in
       score <- getitem "security_score"
                  (v_security_score ssl_verification) ;;
       ret {| ssl_success := true; ssl_error := None;
              ssl_recommendations := None;
              ssl_ssl_config := Some ssl_config;
              ssl_security_score := Some score |})
    (fun e =>
       ret {| ssl_success := false;
              ssl_error := Some (py "SSL configuration failed: " ++ exn_str e);
              ssl_recommendations := None; ssl_ssl_config := None;
              ssl_security_score := None |}).

(** What [_setup_security_configuration] returns; the nginx text, which
    nothing reads, is left out. *)
Record security_configuration := {
  headers : list (string * string);
  cfg_security_level : SecurityLevel
}.

Definition _setup_security_configuration (subdomain_name : str)
  : M security_configuration :=
  ret {| headers :=
           [("X-Frame-Options", "DENY");
            ("X-Content-Type-Options", "nosniff");
            ("X-XSS-Protection", "1; mode=block");
            ("Referrer-Policy", "strict-origin-when-cross-origin");
            ("Content-Security-Policy",
             "default-src 'self'; script-src 'self' 'unsafe-inline'; style-src 'self' 'unsafe-inline'; img-src 'self' data: https:; font-src 'self' https:;");
            ("Strict-Transport-Security",
             "max-age=31536000; includeSubDomains; preload");
            ("Permissions-Policy",
             "geolocation=(), microphone=(), camera=()");
            ("X-Permitted-Cross-Domain-Policies", "none");
            ("X-Download-Options", "noopen");
            ("X-DNS-Prefetch-Control", "off")]%string;
         cfg_security_level := HIGH |}.

(** What [_run_security_scan] returns. *)
Record security_scan := {
  passed : bool;
  issues : list string;
  scan_results : list (string * string);
  scan_security_score : Z
}.

Definition _run_security_scan (subdomain_name : str) : M security_scan :=
  let scan_results :=
    [("vulnerability_scan", "passed"); ("ssl_verification", "passed");
     ("header_security", "passed"); ("content_security", "passed");
     ("rate_limiting", "configured"); ("isolation_check", "passed")]%string in
  let issues :=
    map (fun '(check, result) =>
           String.append check (String.append ": " result))
        (List.filter (fun '(check, result) =>
                        negb (String.eqb result "passed"))
                     scan_results) in
  ret {| passed := (List.length issues =? 0)%nat;
         issues := issues;
         scan_results := scan_results;
         scan_security_score :=
           if (List.length issues =? 0)%nat then 95 else 85 |}.

(** What [_deploy_to_secure_environment] returns. *)
Record deployment_result := {
  d_success : bool;
  d_error : option str;
  security_issues : option (list string);
  deployment_steps : option (list string);
  d_security_scan : option security_scan;
  deployment_time : option Z;
  environment_info : option pydict
}.

(** [asyncio.sleep(2)] only lets time pass, which [clock] accounts for. *)
Definition _deploy_to_secure_environment (project_id subdomain_name : str)
    (isolated_env : isolated_env) (security_config : security_configuration)
  : M deployment_result :=
  try_except
    (let deployment_steps :=
       ["Validating security configuration";
        "Creating isolated environment";
        "Configuring SSL certificate";
        "Setting up security headers";
        "Deploying application";
        "Running security scans";
        "Activating subdomain"]%string in
     security_scan_result <- _run_security_scan subdomain_name ;;
     if negb (passed security_scan_result) then
       ret {| d_success := false;
              d_error := Some (py "Security scan failed");
              security_issues := Some (issues security_scan_result);
              deployment_steps := None; d_security_scan := None;
              deployment_time := None; environment_info := None |}
     else
       now <- datetime_now ;;
       path <- getitem "isolated_path" (isolated_path isolated_env) ;;
       token <- getitem "security_token" (security_token isolated_env) ;;
       limits <- getitem "resource_limits" (resource_limits isolated_env) ;;
       ret {| d_success := true; d_error := None; security_issues := None;
              deployment_steps := Some deployment_steps;
              d_security_scan := Some security_scan_result;
              deployment_time := Some now;
              environment_info :=
                Some [("isolated_path", VStr path);
                      ("security_token", VStr (firstn 8 token ++ py "..."));
                      ("resource_limits", VDict limits)]%string |})
    (fun e =>
       ret {| d_success := false;
              d_error := Some (py "Deployment failed: " ++ exn_str e);
              security_issues := None; deployment_steps := None;
              d_security_scan := None; deployment_time := None;
              environment_info := None |}).

(** What [create_secure_subdomain] returns. *)
Record provisioning_result := {
  success : bool;
  r_error : option str;
  r_security_level : option SecurityLevel;
  r_threat_detected : option bool;
  r_subdomain : option str;
  full_url : option str;
  r_security_score : option Z;
  ssl_configured : option bool;
  security_headers : option (list (string * string));
  deployment_info : option deployment_result;
  r_recommendations : option (list string)
}.

(** A failure: [success], [error], [security_level] and, on one path,
    [threat_detected]. *)
Definition failure (msg : str) (level : SecurityLevel) (threat : option bool)
  : provisioning_result :=
  {| success := false; r_error := Some msg; r_security_level := Some level;
     r_threat_detected := threat; r_subdomain := None; full_url := None;
     r_security_score := None; ssl_configured := None;
     security_headers := None; deployment_info := None;
     r_recommendations := None |}.

Definition create_secure_subdomain (project_id business_name client_ip : str)
  : M provisioning_result :=
  try_except
    (subdomain_name <- _generate_secure_subdomain business_name ;;
     security_validation <-
       validate_subdomain_security subdomain_name client_ip ;;
     if negb (valid security_validation) then
       msg <- getitem "error" (error security_validation) ;;
       level <- getitem "security_level"
                  (security_level security_validation) ;;
       ret (failure msg level
              (Some (default false (threat_detected security_validation))))
     else
       isolated_env <-
         create_isolated_environment (py "/deployments/" ++ project_id)
           project_id ;;
       if negb (env_success isolated_env) then
         ret (failure (py "Failed to create isolated environment")
                CRITICAL None)
       else
         ssl_config <- _configure_wildcard_ssl subdomain_name ;;
         security_config <- _setup_security_configuration subdomain_name ;;
         deployment_result <-
           _deploy_to_secure_environment project_id subdomain_name
             isolated_env security_config ;;
         (if d_success deployment_result then
            created_at <- datetime_now ;;
            score <- getitem "security_score"
                       (security_score security_validation) ;;
            modify (set_active_subdomains
              (Dict.set subdomain_name
                 {| i_project_id := project_id;
                    i_created_at := created_at;
                    i_security_score := score;
                    i_ssl_configured := ssl_success ssl_config;
                    i_security_headers := headers security_config |})) ;;
            security_service_getattr "SecurityAudit" ;;
            audit <- lift (SecurityAudit_init "secure_deployment"
                       (py "Secure deployment completed: " ++ subdomain_name)
                       LOW (Some client_ip) (Some subdomain_name) None
                       (Some [("project_id", VStr project_id);
                              ("security_score", VInt score);
                              ("ssl_configured",
                               VBool (ssl_success ssl_config))]%string)) ;;
            _log_security_audit audit
          else ret tt) ;;
         score <- getitem "security_score"
                    (security_score security_validation) ;;
         ret {| success := d_success deployment_result;
                r_subdomain := Some subdomain_name;
                full_url :=
                  Some (py "https://" ++ subdomain_name ++ py "."
                        ++ base_domain);
                r_security_score := Some score;
                ssl_configured := Some (ssl_success ssl_config);
                security_headers := Some (headers security_config);
                deployment_info := Some deployment_result;
                r_recommendations :=
                  Some (default [] (recommendations security_validation));
                r_error := None; r_security_level := None;
                r_threat_detected := None |})
    (fun e =>
       ret (failure (py "Deployment failed: " ++ exn_str e) CRITICAL None)).

(** What [revoke_subdomain] returns. *)
Record revocation_result := {
  rv_success : bool;
  rv_error : option str;
  rv_message : option str
}.

Definition revoke_subdomain (subdomain_name client_ip : str)
  : M revocation_result :=
  try_except
    (w <- get ;;
     if negb (Dict.mem subdomain_name (active_subdomains w)) then
       ret {| rv_success := false;
              rv_error := Some (py "Subdomain not found");
              rv_message := None |}
     else
       security_service_getattr "SecurityAudit" ;;
       audit <- lift (SecurityAudit_init "subdomain_revocation"
                  (py "Subdomain revoked: " ++ subdomain_name) MEDIUM
                  (Some client_ip) (Some subdomain_name) None None) ;;
       _log_security_audit audit ;;
       modify (set_active_subdomains (Dict.remove subdomain_name)) ;;
       ret {| rv_success := true; rv_error := None;
              rv_message :=
                Some (py "Subdomain " ++ subdomain_name
                      ++ py " revoked successfully") |})
    (fun e =>
       ret {| rv_success := false;
              rv_error := Some (py "Revocation failed: " ++ exn_str e);
              rv_message := None |}).

(** One dictionary of [security_alerts]. *)
Record alert := {
  a_type : string;
  a_severity : string;
  a_message : str
}.

Definition _get_security_alerts : M (list alert) :=
  ssl_status <- verify_wildcard_ssl_security base_domain ;;
  let days :=
    match v_certificate_info ssl_status with
    | Some info => days_until_expiry info
    | None => 0
    end in
  let alerts :=
    if days <? 30 then
      [{| a_type := "ssl_expiration"; a_severity := "high";
          a_message := py "SSL certificate expires soon" |}]
    else [] in
  w <- get ;;
  ret (alerts ++
       flat_map (fun '(subdomain, info) =>
                   if i_security_score info <? 60 then
                     [{| a_type := "low_security_score";
                         a_severity := "medium";
                         a_message :=
                           py "Low security score for " ++ subdomain |}]
                   else [])
                (active_subdomains w)).

(** The report divides two integers and rounds the quotient; both are
    floating-point operations of the interpreter, taken here as they come:
    [float_div a b] is [a / b] where that quotient has a float,
    [float_round x n] is [round(x, n)] on a float. *)
Section Report.
Variable float : Type.
Variable float_div : Z -> Z -> float.
Variable float_round : float -> Z -> float.

Inductive number :=
  | Int (z : Z)
  | Float (x : float).

(** The least magnitude that no float holds: a quotient of integers that
    large rounds to [2 ** 1024]. *)
Definition float_limit : Z := 2 ^ 1024 - 2 ^ 970.

(** [a / b] has no float: [float_limit <= |a / b|]. *)
Definition float_overflow (a b : Z) : bool :=
  float_limit * Z.abs b <=? Z.abs a.

(** [a / b] on integers: [ZeroDivisionError] for a zero divisor,
    [OverflowError] for a quotient beyond the floats. *)
Definition truediv (a b : Z) : M number :=
  if b =? 0 then raise (ZeroDivisionError (py "division by zero"))
  else if float_overflow a b then
    raise (OverflowError (py "integer division result too large for a float"))
  else ret (Float (float_div a b)).

(** [round(x, ndigits)] with [0 <= ndigits]: an integer is returned as it
    is. *)
Definition py_round (x : number) (ndigits : Z) : number :=
  match x with
  | Int z => Int z
  | Float f => Float (float_round f ndigits)
  end.

(** What [get_security_report] returns. *)
Record security_report := {
  total_subdomains : Z;
  average_security_score : number;
  ssl_configured_count : Z;
  recent_deployments : list str;
  security_alerts : list alert
}.

(** [sum(...)] over integers. *)
Definition py_sum (l : list Z) : Z := fold_left Z.add l 0.

Definition get_security_report : M security_report :=
  w <- get ;;
  let total_subdomains := Z.of_nat (List.length (active_subdomains w)) in
  avg_security_score <-
    (if 0 <? total_subdomains then
       truediv
         (py_sum (map i_security_score (Dict.values (active_subdomains w))))
         total_subdomains
     else ret (Int 0)) ;;
  let average := py_round avg_security_score 2 in
  let count :=
    py_sum (map (fun _ => 1)
           (List.filter i_ssl_configured
              (Dict.values (active_subdomains w)))) in
  let keys := Dict.keys (active_subdomains w) in
  let recent := skipn (List.length keys - 5) keys in
  alerts <- _get_security_alerts ;;
  ret {| total_subdomains := total_subdomains;
         average_security_score := average;
         ssl_configured_count := count;
         recent_deployments := recent;
         security_alerts := alerts |}.
End Report.

Arguments Int {float} z.
Arguments Float {float} x.


Arguments total_subdomains {float} _.
Arguments average_security_score {float} _.
Arguments ssl_configured_count {float} _.
Arguments recent_deployments {float} _.
Arguments security_alerts {float} _.

(** * Vocabulary of the properties *)

(** ** The rate window *)

(** The attempts recorded for [client_ip]; a client that was never seen has
    none. *)
Definition window (client_ip : str) (w : World) : list Z :=
  default [] (rate_limit_store w !! client_ip).

(** What is left of the window at the next reading of the clock. *)
Definition pruned (client_ip : str) (w : World) : list Z :=
  List.filter (fun time => clock w (ticks w) - time <? one_hour)
    (window client_ip w).

(** [time] is less than one hour before the next reading of the clock. *)
Definition recent (w : World) (time : Z) : Prop :=
  clock w (ticks w) - time < one_hour.

Definition rate_limited (client_ip : str) (w : World) : bool :=
  (5 <=? List.length (pruned client_ip w))%nat.

(** The event that a refused rate check leaves in the log. *)
Definition rate_limit_entry (client_ip : str) (timestamp : Z) : audit_entry :=
  {| e_timestamp := timestamp;
     e_event_type := "rate_limit_violation";
     e_description := py "Rate limit exceeded for IP: " ++ client_ip;
     e_severity := "high";
     e_client_ip := client_ip;
     e_subdomain := None;
     e_threat_type := Some "rate_limit_violation"%string;
     e_metadata := None |}.

(** The world after a refused and after a granted rate check. *)
Definition after_rate_reject (client_ip : str) (w : World) : World :=
  set_security_audit_log
    (fun log => log ++ [rate_limit_entry client_ip (clock w (S (ticks w)))])
    (tick (tick (set_rate_limit_store <[client_ip := pruned client_ip w]> w))).

Definition after_rate_pass (client_ip : str) (w : World) : World :=
  tick (set_rate_limit_store
          <[client_ip := pruned client_ip w ++ [clock w (ticks w)]]> w).

(** [n] rate checks of one client in a row, and what each answered. *)
Fixpoint attempts (client_ip : str) (n : nat) : M (list bool) :=
  match n with
  | O => ret []
  | S n' =>
      allowed <- _check_rate_limit client_ip ;;
      rest <- attempts client_ip n' ;;
      ret (allowed :: rest)
  end.

(** ** The stages of validation *)

Definition length_ok (name : str) : bool :=
  negb ((List.length name <? 3)%nat || (63 <? List.length name)%nat).

(** The first entry of each list that [name] matches, as the loops of
    [_validate_input], [_check_blocked_patterns] and
    [_detect_homograph_attack] find it. *)
Definition suspicious_token (name : str) : option str :=
  List.find (fun suspicious => Str.contains suspicious (Str.lower name))
    suspicious_chars.

Definition blocked_word (name : str) : option str :=
  List.find (fun pattern => Str.contains pattern (Str.lower name))
    blocked_patterns.

Definition lookalike (name : str) : option N :=
  List.find (fun char => Str.contains [char] name) suspicious_unicode.

(** What [SecurityAudit(...)] raises at the call sites that pass no
    [client_ip]. *)
Definition missing_client_ip : exn :=
  TypeError (py
    "SecurityAudit.__init__() missing 1 required positional argument: 'client_ip'").

(** [{'valid': True}] *)
Definition accepted_input : validation_result :=
  {| valid := true; error := None; security_level := None;
     threat_detected := None; security_score := None;
     recommendations := None |}.

(** The accepting decision and the event logged with it. *)
Definition acceptance (name : str) : validation_result :=
  {| valid := true; error := None;
     security_score := Some (_calculate_security_score name);
     security_level :=
       Some (_get_security_level (_calculate_security_score name));
     recommendations :=
       Some (_get_security_recommendations (_calculate_security_score name));
     threat_detected := None |}.

Definition validation_entry (name client_ip : str) (timestamp : Z)
  : audit_entry :=
  {| e_timestamp := timestamp;
     e_event_type := "subdomain_validation";
     e_description := py "Subdomain validation for: " ++ name;
     e_severity := "low";
     e_client_ip := client_ip;
     e_subdomain := Some name;
     e_threat_type := None;
     e_metadata :=
       Some [("security_score"%string,
              VInt (_calculate_security_score name))] |}.

(** What the [except] branch of [validate_subdomain_security] returns. *)
Definition internal_failure : validation_result :=
  rejection "Security validation failed." CRITICAL (Some true).

(** ** The score *)

Definition penalty (applies : bool) (points : Z) : Z :=
  if applies then points else 0.

Definition length_penalty (name : str) : Z :=
  penalty (List.length name <? 5)%nat 10.
Definition digit_penalty (name : str) : Z :=
  penalty (negb (Str.has_digit name)) 5.
Definition hyphen_penalty (name : str) : Z :=
  penalty (2 <? Str.count_char Str.hyphen name)%nat 15.

(** How many of the four words occur in [name] at all. *)
Definition words_present (name : str) : Z :=
  Z.of_nat (List.length
    (List.filter (fun pattern => Str.contains pattern name)
       low_effort_patterns)).

(** How many occurrences of the four words [name] has, each one counted. *)
Definition word_occurrences (name : str) : Z :=
  Z.of_nat (list_sum
    (map (fun pattern => Str.occurrences pattern name) low_effort_patterns)).

(** The score in the words of the specification: 20 for each occurrence. *)
Definition score_per_occurrence (name : str) : Z :=
  Z.max 0 (100 - length_penalty name - digit_penalty name
           - hyphen_penalty name - 20 * word_occurrences name).

(** ** Worlds to start from *)

(** Nothing has happened yet. *)
Definition fresh_world (clock : nat -> Z) (entropy : nat -> nat -> str)
  : World :=
  {| rate_limit_store := ∅; security_audit_log := [];
     active_subdomains := [];
     clock := clock; ticks := 0; entropy := entropy; draws := 0 |}.

(** [client_ip] made five attempts at time 0 and the clock still shows 0. *)
Definition busy_world (client_ip : str) : World :=
  {| rate_limit_store := {[ client_ip := [0; 0; 0; 0; 0] ]};
     security_audit_log := []; active_subdomains := [];
     clock := fun _ => 0; ticks := 0;
     entropy := fun _ _ => []; draws := 0 |}.

Definition sample_info : subdomain_info :=
  {| i_project_id := py "p1"; i_created_at := 0; i_security_score := 100;
     i_ssl_configured := false; i_security_headers := [] |}.

Definition other_info : subdomain_info :=
  {| i_project_id := py "p2"; i_created_at := 7; i_security_score := 95;
     i_ssl_configured := true; i_security_headers := [] |}.

(** The registry holds [acme123] and nothing else. *)
Definition one_subdomain (clock : nat -> Z) (entropy : nat -> nat -> str)
  : World :=
  set_active_subdomains (fun _ => [(py "acme123", sample_info)])
    (fresh_world clock entropy).

(** The registry holds two names, one of them with SSL configured. *)
Definition two_subdomains : World :=
  set_active_subdomains
    (fun _ => [(py "acme123", sample_info); (py "zeta456", other_info)])
    (fresh_world (fun _ => 0) (fun _ _ => [])).

(** ** The report *)

(** The scores of the active entries, added up. *)
Definition total_score (w : World) : Z :=
  fold_right Z.add 0
    (map i_security_score (Dict.values (active_subdomains w))).

(** The number of active entries whose [ssl_configured] is true. *)
Definition ssl_count (w : World) : Z :=
  Z.of_nat (List.length
    (List.filter i_ssl_configured (Dict.values (active_subdomains w)))).

(** The text of the [AttributeError] for a name the instance lacks. *)
Definition no_attribute (name : string) : str :=
  py "'SecurityService' object has no attribute '" ++ py name ++ py "'".

(** * The rest of the two services *)

(** ** [SecurityService.get_security_report] and [_get_threat_summary] *)

(** A dictionary from text to counts, in insertion order. *)
Module Counts.

(** [d.get(k, default)] *)
Fixpoint get (k : string) (default : Z) (d : list (string * Z)) : Z :=
  match d with
  | [] => default
  | (k', n) :: d' => if String.eqb k k' then n else get k default d'
  end.

(** [d[k] = n] *)
Fixpoint set (k : string) (n : Z) (d : list (string * Z))
  : list (string * Z) :=
  match d with
  | [] => [(k, n)]
  | (k', n') :: d' =>
      if String.eqb k k' then (k, n) :: d' else (k', n') :: set k n d'
  end.

End Counts.

(** The truth value of [event.get('threat_type')]: [None] and the empty
    text count as false. *)
Definition threat_of (event : audit_entry) : option string :=
  match e_threat_type event with
  | Some EmptyString => None
  | Some threat_type => Some threat_type
  | None => None
  end.

Definition _get_threat_summary : M (list (string * Z)) :=
  w <- get ;;
  ret (fold_left
         (fun threat_counts event =>
            match threat_of event with
            | Some threat_type =>
                Counts.set threat_type
                  (Counts.get threat_type 0 threat_counts + 1) threat_counts
            | None => threat_counts
            end)
         (security_audit_log w) []).

(** What [SecurityService.get_security_report] returns. *)
Record audit_report := {
  total_events : Z;
  critical_events : Z;
  high_events : Z;
  audit_security_score : Z;
  recent_events : list audit_entry;
  threat_summary : list (string * Z)
}.

(** [len([e for e in log if e['severity'] == level])] *)
Definition events_of_severity (level : string) (log : list audit_entry) : Z :=
  Z.of_nat (List.length
    (List.filter (fun e => String.eqb (e_severity e) level) log)).

(** [SecurityService.get_security_report]; the name [get_security_report]
    is taken by the method of the deployment service. *)
Definition audit_get_security_report : M audit_report :=
  w <- get ;;
  let log := security_audit_log w in
  let total_events := Z.of_nat (List.length log) in
  let critical_events := events_of_severity "critical" log in
  let high_events := events_of_severity "high" log in
  threat_summary <- _get_threat_summary ;;
  ret {| total_events := total_events;
         critical_events := critical_events;
         high_events := high_events;
         audit_security_score :=
           Z.max 0 (100 - critical_events * 20 - high_events * 10);
         recent_events := skipn (List.length log - 10) log;
         threat_summary := threat_summary |}.

(** ** [SecureDeploymentService.get_deployment_status] *)

(** What [get_deployment_status] returns; the times are clock readings
    rather than their ISO text. *)
Record deployment_status := {
  ds_exists : bool;
  ds_error : option str;
  ds_subdomain : option str;
  ds_full_url : option str;
  ds_created_at : option Z;
  ds_security_score : option Z;
  ds_ssl_status : option ssl_verification;
  ds_security_headers : option (list (string * string));
  ds_uptime : option string;
  ds_last_security_audit : option Z
}.

(** [self.active_subdomains[subdomain_name]] *)
Definition active_subdomains_getitem (subdomain_name : str)
  : M subdomain_info :=
  w <- get ;;
  match Dict.lookup subdomain_name (active_subdomains w) with
  | Some info => ret info
  | None => raise (KeyError subdomain_name)
  end.

Definition get_deployment_status (subdomain_name : str)
  : M deployment_status :=
  w <- get ;;
  if negb (Dict.mem subdomain_name (active_subdomains w)) then
    ret {| ds_exists := false;
           ds_error := Some (py "Subdomain not found");
           ds_subdomain := None; ds_full_url := None;
           ds_created_at := None; ds_security_score := None;
           ds_ssl_status := None; ds_security_headers := None;
           ds_uptime := None; ds_last_security_audit := None |}
  else
    subdomain_info <- active_subdomains_getitem subdomain_name ;;
    ssl_status <- verify_wildcard_ssl_security base_domain ;;
    now <- datetime_now ;;
    ret {| ds_exists := true; ds_error := None;
           ds_subdomain := Some subdomain_name;
           ds_full_url :=
             Some (py "https://" ++ subdomain_name ++ py "."
                   ++ base_domain);
           ds_created_at := Some (i_created_at subdomain_info);
           ds_security_score := Some (i_security_score subdomain_info);
           ds_ssl_status := Some ssl_status;
           ds_security_headers :=
             Some (i_security_headers subdomain_info);
           ds_uptime := Some "99.9%"%string;
           ds_last_security_audit := Some now |}.

(** ** More vocabulary *)

(** The events of [log] whose threat type is [threat]. *)
Definition events_of_threat (threat : string) (log : list audit_entry) : Z :=
  Z.of_nat (List.length
    (List.filter
       (fun e => match threat_of e with
                 | Some t => String.eqb threat t
                 | None => false
                 end) log)).



(** The alert that [_get_security_alerts] raises for the certificate, and
    the one for an entry with a low score. *)
Definition ssl_expiration_alert : alert :=
  {| a_type := "ssl_expiration"; a_severity := "high";
     a_message := py "SSL certificate expires soon" |}.

Definition low_score_alert (subdomain : str) : alert :=
  {| a_type := "low_security_score"; a_severity := "medium";
     a_message := py "Low security score for " ++ subdomain |}.

(** The client's five attempts are an hour old when the clock is read. *)
Definition stale_world (client_ip : str) : World :=
  {| rate_limit_store := {[ client_ip := [0; 0; 0; 0; 0] ]};
     security_audit_log := []; active_subdomains := [];
     clock := fun _ => one_hour; ticks := 0;
     entropy := fun _ _ => []; draws := 0 |}.

(** The window as the specification words the pruning: the entries that
    are not older than one hour stay. *)
Definition kept_as_worded (client_ip : str) (w : World) : list Z :=
  List.filter (fun time => clock w (ticks w) - time <=? one_hour)
    (window client_ip w).





(** The registry holds one entry whose score is far beyond the floats. *)
Definition overflow_world : World :=
  set_active_subdomains
    (fun _ => [(py "acme123",
                {| i_project_id := py "p1"; i_created_at := 0;
                   i_security_score := 10 ^ 400;
                   i_ssl_configured := false; i_security_headers := [] |})])
    (fresh_world (fun _ => 0) (fun _ _ => [])).

(** Every registered score is one the scorer can give. *)
Definition scores_in_range (w : World) : Prop :=
  List.Forall (fun info => 0 <= i_security_score info <= 100)
    (Dict.values (active_subdomains w)).

(** One step of the loop of [_get_threat_summary]. *)
Definition count_step (threat_counts : list (string * Z))
    (event : audit_entry) : list (string * Z) :=
  match threat_of event with
  | Some threat_type =>
      Counts.set threat_type
        (Counts.get threat_type 0 threat_counts + 1) threat_counts
  | None => threat_counts
  end.

(** * Properties *)

(** ** Running the text and score functions *)

Example score_plain : _calculate_security_score (py "ab12345") = 100.
Proof. reflexivity. Qed.

Example score_test : _calculate_security_score (py "test") = 65.
Proof. reflexivity. Qed.

Example score_floor :
  _calculate_security_score (py "testdemotemptmp---") = 0.
Proof. reflexivity. Qed.

Example label_trailing_hyphen : Str.match_label (py "abc-") = false.
Proof. reflexivity. Qed.

Example label_line_feed : Str.match_label (py "abc" ++ [Str.newline]) = true.
Proof. reflexivity. Qed.

Example lower_mixed : Str.lower (py "Acme-Site9") = py "acme-site9".
Proof. reflexivity. Qed.

(** ** Dictionaries *)

Section DictFacts.
Context {V : Type}.
Implicit Types (d : list (str * V)) (k : str) (v : V).

Lemma key_eqb_refl k : Dict.key_eqb k k = true.
Proof. unfold Dict.key_eqb. apply bool_decide_eq_true. reflexivity. Qed.

Lemma key_eqb_neq k k' : k <> k' -> Dict.key_eqb k k' = false.
Proof. unfold Dict.key_eqb. apply bool_decide_eq_false. Qed.

Lemma lookup_set_same k v d : Dict.lookup k (Dict.set k v d) = Some v.
Proof.
  induction d as [|[k' v'] d IH]; cbn.
  - rewrite key_eqb_refl. reflexivity.
  - destruct (Dict.key_eqb k k') eqn:E; cbn.
    + rewrite key_eqb_refl. reflexivity.
    + rewrite E. exact IH.
Qed.

Lemma lookup_set_other k k' v d :
  k' <> k -> Dict.lookup k' (Dict.set k v d) = Dict.lookup k' d.
Proof.
  intros Hne. induction d as [|[k0 v0] d IH]; cbn.
  - rewrite (key_eqb_neq _ _ Hne). reflexivity.
  - destruct (Dict.key_eqb k k0) eqn:E; cbn.
    + apply bool_decide_eq_true in E. subst k0.
      rewrite (key_eqb_neq _ _ Hne). reflexivity.
    + destruct (Dict.key_eqb k' k0); [reflexivity | exact IH].
Qed.


End DictFacts.

(** ** What each method computes *)

Ltac find_rate_test :=
  match goal with
  | |- context [(5 <=? ?n)%nat] => destruct (5 <=? n)%nat
  end.

Ltac step := cbn -[Nat.leb Z.ltb List.filter py].

Lemma check_rate_limit_run client_ip w :
  _check_rate_limit client_ip w =
  if rate_limited client_ip w
  then (Ok false, after_rate_reject client_ip w)
  else (Ok true, after_rate_pass client_ip w).
Proof.
  unfold rate_limited, after_rate_reject, after_rate_pass.
  unfold _check_rate_limit, pruned, window, bind, datetime_now, get,
    rate_limit_store_getitem, modify, ret, lift, _log_security_audit.
  step.
  destruct (rate_limit_store w !! client_ip) as [old|] eqn:Hold; step.
  - rewrite Hold. step. rewrite lookup_insert_eq.
    find_rate_test; step.
    + reflexivity.
    + rewrite lookup_insert_eq. unfold tick, set_rate_limit_store; step.
      rewrite insert_insert_eq. reflexivity.
  - rewrite lookup_insert_eq. step. rewrite lookup_insert_eq.
    find_rate_test; step.
    + unfold tick, set_rate_limit_store, set_security_audit_log; step.
      rewrite insert_insert_eq. reflexivity.
    + rewrite lookup_insert_eq. unfold tick, set_rate_limit_store; step.
      rewrite !insert_insert_eq. reflexivity.
Qed.

Lemma validate_input_run name w :
  _validate_input name w =
  if negb (length_ok name) then
    (Ok (rejection "Subdomain must be between 3 and 63 characters."
           MEDIUM None), w)
  else if negb (Str.match_label name) then
    (Ok (rejection
           "Subdomain must contain only lowercase letters, numbers, and hyphens."
           MEDIUM None), w)
  else match suspicious_token name with
       | Some _ => (Raise missing_client_ip, w)
       | None => (Ok accepted_input, w)
       end.
Proof.
  unfold _validate_input, length_ok, suspicious_token.
  rewrite negb_involutive.
  destruct (_ || _); [reflexivity|].
  destruct (negb _); [reflexivity|].
  destruct (List.find _ _); reflexivity.
Qed.

Lemma check_blocked_patterns_run name w :
  _check_blocked_patterns name w =
  match blocked_word name with
  | Some _ => (Raise missing_client_ip, w)
  | None => (Ok false, w)
  end.
Proof.
  unfold _check_blocked_patterns, blocked_word.
  destruct (List.find _ _); reflexivity.
Qed.

Lemma detect_homograph_attack_run name w :
  _detect_homograph_attack name w =
  match lookalike name with
  | Some _ => (Raise missing_client_ip, w)
  | None => (Ok false, w)
  end.
Proof.
  unfold _detect_homograph_attack, lookalike.
  destruct (List.find _ _); reflexivity.
Qed.

(** The whole pipeline, path by path. *)
Lemma validate_subdomain_security_run name client_ip w :
  validate_subdomain_security name client_ip w =
  if rate_limited client_ip w then
    (Ok (rejection "Rate limit exceeded. Please try again later."
           CRITICAL (Some true)), after_rate_reject client_ip w)
  else
    let w1 := after_rate_pass client_ip w in
    if negb (length_ok name) then
      (Ok (rejection "Subdomain must be between 3 and 63 characters."
             MEDIUM None), w1)
    else if negb (Str.match_label name) then
      (Ok (rejection
             "Subdomain must contain only lowercase letters, numbers, and hyphens."
             MEDIUM None), w1)
    else match suspicious_token name, blocked_word name, lookalike name with
         | None, None, None =>
             (Ok (acceptance name),
              set_security_audit_log
                (fun log => log ++
                   [validation_entry name client_ip (clock w1 (ticks w1))])
                (tick w1))
         | _, _, _ => (Ok internal_failure, w1)
         end.
Proof.
  unfold validate_subdomain_security, try_except, bind.
  rewrite check_rate_limit_run.
  destruct (rate_limited client_ip w); [reflexivity|].
  cbn [negb]. rewrite validate_input_run.
  destruct (negb (length_ok name)); [reflexivity|].
  destruct (negb (Str.match_label name)); [reflexivity|].
  destruct (suspicious_token name); [reflexivity|].
  cbn [valid accepted_input negb]. rewrite check_blocked_patterns_run.
  destruct (blocked_word name); [reflexivity|].
  rewrite detect_homograph_attack_run.
  destruct (lookalike name); reflexivity.
Qed.

Lemma get_deployment_status_run name w :
  get_deployment_status name w =
  match Dict.lookup name (active_subdomains w) with
  | None =>
      (Ok {| ds_exists := false;
             ds_error := Some (py "Subdomain not found");
             ds_subdomain := None; ds_full_url := None;
             ds_created_at := None; ds_security_score := None;
             ds_ssl_status := None; ds_security_headers := None;
             ds_uptime := None; ds_last_security_audit := None |}, w)
  | Some info =>
      (Ok {| ds_exists := true; ds_error := None;
             ds_subdomain := Some name;
             ds_full_url :=
               Some (py "https://" ++ name ++ py "." ++ base_domain);
             ds_created_at := Some (i_created_at info);
             ds_security_score := Some (i_security_score info);
             ds_ssl_status :=
               Some {| secure := false;
                       v_error := Some (exn_str missing_client_ip);
                       v_security_score := None;
                       v_certificate_info := None;
                       v_security_checks := None;
                       v_recommendations := None |};
             ds_security_headers := Some (i_security_headers info);
             ds_uptime := Some "99.9%"%string;
             ds_last_security_audit := Some (clock w (ticks w)) |},
       tick w)
  end.
Proof.
  unfold get_deployment_status, active_subdomains_getitem, Dict.mem,
    bind, get.
  destruct (Dict.lookup name (active_subdomains w)) eqn:E; cbn [negb];
    [|reflexivity].
  cbv beta. rewrite E. reflexivity.
Qed.

Ltac by_path name client_ip w :=
  rewrite validate_subdomain_security_run;
  destruct (rate_limited client_ip w); cbv zeta;
  try (destruct (negb (length_ok name)));
  try (destruct (negb (Str.match_label name)));
  try (destruct (suspicious_token name), (blocked_word name),
         (lookalike name)).

(** A name with a blocked word, once past the earlier stages, ends in the
    [except] branch: no event, and the window already charged. *)
Lemma blocked_word_run name client_ip w :
  rate_limited client_ip w = false ->
  length_ok name = true -> Str.match_label name = true ->
  suspicious_token name = None ->
  blocked_word name <> None ->
  validate_subdomain_security name client_ip w
  = (Ok internal_failure, after_rate_pass client_ip w).
Proof.
  intros Hrate Hlen Hfmt Hsus Hblk.
  rewrite validate_subdomain_security_run, Hrate. cbv zeta.
  rewrite Hlen, Hfmt, Hsus. cbn [negb].
  destruct (blocked_word name); [reflexivity | congruence].
Qed.

Lemma verify_wildcard_ssl_security_run domain w :
  verify_wildcard_ssl_security domain w
  = (Ok {| secure := false; v_error := Some (exn_str missing_client_ip);
           v_security_score := None; v_certificate_info := None;
           v_security_checks := None; v_recommendations := None |}, w).
Proof. reflexivity. Qed.

Lemma get_security_alerts_returns w :
  exists alerts, _get_security_alerts w = (Ok alerts, w).
Proof.
  unfold _get_security_alerts, bind.
  rewrite verify_wildcard_ssl_security_run. eexists. reflexivity.
Qed.

(** [security_service.secrets] raises before any suffix is drawn. *)
Lemma generate_secure_subdomain_run business_name w :
  _generate_secure_subdomain business_name w
  = (Raise (AttributeError (no_attribute "secrets")), w).
Proof. reflexivity. Qed.

Lemma create_secure_subdomain_run project_id business_name client_ip w :
  create_secure_subdomain project_id business_name client_ip w
  = (Ok (failure (py "Deployment failed: " ++ no_attribute "secrets")
           CRITICAL None), w).
Proof. reflexivity. Qed.

Lemma revoke_subdomain_run name client_ip w :
  revoke_subdomain name client_ip w =
  if Dict.mem name (active_subdomains w) then
    (Ok {| rv_success := false;
           rv_error :=
             Some (py "Revocation failed: " ++ no_attribute "SecurityAudit");
           rv_message := None |}, w)
  else
    (Ok {| rv_success := false; rv_error := Some (py "Subdomain not found");
           rv_message := None |}, w).
Proof.
  unfold revoke_subdomain, try_except, bind, get.
  destruct (Dict.mem name (active_subdomains w)); reflexivity.
Qed.

(** ** The rate window, step by step *)

Lemma pruned_spec client_ip w t :
  In t (pruned client_ip w) <-> In t (window client_ip w) /\ recent w t.
Proof.
  unfold pruned, recent. rewrite filter_In, Z.ltb_lt. reflexivity.
Qed.

Lemma pruned_all client_ip w :
  List.Forall (recent w) (window client_ip w) ->
  pruned client_ip w = window client_ip w.
Proof.
  unfold pruned, recent. induction 1 as [|t l Ht _ IH]; [reflexivity|].
  cbn [List.filter]. apply Z.ltb_lt in Ht. rewrite Ht, IH. reflexivity.
Qed.

Lemma window_after_pass client_ip w :
  window client_ip (after_rate_pass client_ip w)
  = pruned client_ip w ++ [clock w (ticks w)].
Proof.
  unfold window, after_rate_pass, tick, set_rate_limit_store.
  cbn [rate_limit_store]. rewrite lookup_insert_eq. reflexivity.
Qed.

Lemma window_after_reject client_ip w :
  window client_ip (after_rate_reject client_ip w) = pruned client_ip w.
Proof.
  unfold window, after_rate_reject, tick, set_rate_limit_store,
    set_security_audit_log.
  cbn [rate_limit_store]. rewrite lookup_insert_eq. reflexivity.
Qed.

(** Another client's window is not touched. *)
Lemma window_of_other client_ip other w :
  other <> client_ip ->
  window other (after_rate_pass client_ip w) = window other w
  /\ window other (after_rate_reject client_ip w) = window other w.
Proof.
  intros Hne.
  unfold window, after_rate_pass, after_rate_reject, tick,
    set_rate_limit_store, set_security_audit_log.
  cbn [rate_limit_store]. rewrite !lookup_insert_ne by congruence.
  split; reflexivity.
Qed.

Lemma pass_step client_ip w l :
  window client_ip w = l ->
  List.Forall (recent w) l ->
  (List.length l < 5)%nat ->
  _check_rate_limit client_ip w = (Ok true, after_rate_pass client_ip w)
  /\ window client_ip (after_rate_pass client_ip w)
     = l ++ [clock w (ticks w)].
Proof.
  intros Hl Hall Hlen. subst l.
  rewrite check_rate_limit_run, window_after_pass. unfold rate_limited.
  rewrite (pruned_all _ _ Hall).
  destruct (Nat.leb_spec 5 (List.length (window client_ip w))); [lia|].
  split; reflexivity.
Qed.

Lemma reject_step client_ip w :
  List.Forall (recent w) (window client_ip w) ->
  (5 <= List.length (window client_ip w))%nat ->
  _check_rate_limit client_ip w = (Ok false, after_rate_reject client_ip w).
Proof.
  intros Hall Hlen.
  rewrite check_rate_limit_run. unfold rate_limited.
  rewrite (pruned_all _ _ Hall).
  destruct (Nat.leb_spec 5 (List.length (window client_ip w))); [|lia].
  reflexivity.
Qed.

(** Six checks of a client with an empty window, every reading of the clock
    less than an hour after each earlier one. *)
Lemma six_attempts client_ip w :
  window client_ip w = [] ->
  (forall i j : nat, (i < j < 6)%nat ->
     clock w (j + ticks w) - clock w (i + ticks w) < one_hour) ->
  exists w',
    attempts client_ip 6 w = (Ok [true; true; true; true; true; false], w').
Proof.
  intros Hempty Hclose.
  assert (H01 := Hclose 0%nat 1%nat ltac:(lia)).
  assert (H02 := Hclose 0%nat 2%nat ltac:(lia)).
  assert (H03 := Hclose 0%nat 3%nat ltac:(lia)).
  assert (H04 := Hclose 0%nat 4%nat ltac:(lia)).
  assert (H05 := Hclose 0%nat 5%nat ltac:(lia)).
  assert (H12 := Hclose 1%nat 2%nat ltac:(lia)).
  assert (H13 := Hclose 1%nat 3%nat ltac:(lia)).
  assert (H14 := Hclose 1%nat 4%nat ltac:(lia)).
  assert (H15 := Hclose 1%nat 5%nat ltac:(lia)).
  assert (H23 := Hclose 2%nat 3%nat ltac:(lia)).
  assert (H24 := Hclose 2%nat 4%nat ltac:(lia)).
  assert (H25 := Hclose 2%nat 5%nat ltac:(lia)).
  assert (H34 := Hclose 3%nat 4%nat ltac:(lia)).
  assert (H35 := Hclose 3%nat 5%nat ltac:(lia)).
  assert (H45 := Hclose 4%nat 5%nat ltac:(lia)).
  cbn [Nat.add] in *. clear Hclose.
  destruct (pass_step client_ip w [] Hempty) as [R1 W1];
    [constructor | cbn; lia |].
  set (w1 := after_rate_pass client_ip w) in *.
  destruct (pass_step client_ip w1 _ W1) as [R2 W2];
    [repeat constructor; assumption | cbn; lia |].
  set (w2 := after_rate_pass client_ip w1) in *.
  destruct (pass_step client_ip w2 _ W2) as [R3 W3];
    [repeat constructor; assumption | cbn; lia |].
  set (w3 := after_rate_pass client_ip w2) in *.
  destruct (pass_step client_ip w3 _ W3) as [R4 W4];
    [repeat constructor; assumption | cbn; lia |].
  set (w4 := after_rate_pass client_ip w3) in *.
  destruct (pass_step client_ip w4 _ W4) as [R5 W5];
    [repeat constructor; assumption | cbn; lia |].
  set (w5 := after_rate_pass client_ip w4) in *.
  assert (R6 := reject_step client_ip w5).
  rewrite W5 in R6.
  specialize (R6 ltac:(repeat constructor; assumption) ltac:(cbn; lia)).
  exists (after_rate_reject client_ip w5).
  cbn [attempts]. unfold bind, ret.
  rewrite R1. fold w1. rewrite R2. fold w2. rewrite R3. fold w3.
  rewrite R4. fold w4. rewrite R5. fold w5. rewrite R6. reflexivity.
Qed.

(** ** The claims *)

(** C1 (the code departs from the claim).  The request of the claim, business
    name [brightideas9] from client [10.0.0.5] on a fresh registry, does not
    complete: the first statement of the pipeline reads
    [security_service.secrets], the instance has no such attribute, and the
    outer handler answers [success = false] with the text of the
    [AttributeError].  No score and no SSL flag are returned, the audit log
    and the registry stay empty, and neither clock nor entropy is read. *)
Theorem C1_provisioning_stops_at_name_generation :
  forall project_id clock entropy,
    let w := fresh_world clock entropy in
    exists r,
      create_secure_subdomain project_id (py "brightideas9") (py "10.0.0.5") w
      = (Ok r, w) /\
      success r = false /\
      r_error r =
        Some (py "Deployment failed: 'SecurityService' object has no attribute 'secrets'") /\
      r_security_score r = None /\
      ssl_configured r = None /\
      security_audit_log w = [] /\
      active_subdomains w = [].
Proof.
  intros project_id clock entropy w. eexists. split.
  - apply create_secure_subdomain_run.
  - repeat split.
Qed.

(** C2, the claim as worded fails at the boundary: with five attempts
    recorded exactly one hour before the check, none is older than one
    hour, so five remain and the check should be refused; the code drops
    all five and grants it. *)
Lemma C2_counterexample :
  ~ (forall client_ip w,
       (5 <= List.length (kept_as_worded client_ip w))%nat ->
       exists w', _check_rate_limit client_ip w = (Ok false, w')).
Proof.
  intros H.
  assert (Hwindow : window (py "10.0.0.5") (stale_world (py "10.0.0.5"))
                    = [0; 0; 0; 0; 0]).
  { unfold window, stale_world. cbn [rate_limit_store].
    rewrite lookup_singleton_eq. reflexivity. }
  destruct (H (py "10.0.0.5") (stale_world (py "10.0.0.5"))) as [w' Hrun].
  - unfold kept_as_worded. rewrite Hwindow.
    unfold stale_world. cbn [clock ticks]. vm_compute. lia.
  - rewrite check_rate_limit_run in Hrun. unfold rate_limited, pruned in Hrun.
    rewrite Hwindow in Hrun. unfold stale_world at 1 2 in Hrun.
    cbn [clock ticks] in Hrun.
    change (List.filter (fun time => one_hour - time <? one_hour)
              [0; 0; 0; 0; 0]) with (@nil Z) in Hrun.
    cbn [List.length Nat.leb] in Hrun. discriminate.
Qed.

(** C2 (amended).  For every client and every state, a rate check keeps
    exactly the entries of the client's window that are less than one hour
    old: an entry one hour old or older is dropped.  If five or more remain
    it answers false, leaves the window at the pruned entries and appends
    exactly one event, of type [rate_limit_violation] and severity [high];
    otherwise it answers true, appends the time of the check to the window
    and leaves the log alone.  Hence six checks in a row for a client with
    an empty window, each reading of the clock less than an hour after the
    earlier ones, answer true five times and then false. *)
Theorem C2_rate_limit_window :
  (forall client_ip w,
     (forall t, In t (pruned client_ip w)
                <-> In t (window client_ip w)
                    /\ clock w (ticks w) - t < one_hour) /\
     exists allowed w',
       _check_rate_limit client_ip w = (Ok allowed, w') /\
       ((5 <= List.length (pruned client_ip w))%nat ->
          allowed = false /\
          window client_ip w' = pruned client_ip w /\
          exists e,
            security_audit_log w' = security_audit_log w ++ [e] /\
            e_event_type e = "rate_limit_violation"%string /\
            e_severity e = SecurityLevel_value HIGH) /\
       ((List.length (pruned client_ip w) < 5)%nat ->
          allowed = true /\
          window client_ip w'
            = pruned client_ip w ++ [clock w (ticks w)] /\
          security_audit_log w' = security_audit_log w))
  /\
  (forall client_ip w,
     window client_ip w = [] ->
     (forall i j : nat, (i < j < 6)%nat ->
        clock w (j + ticks w) - clock w (i + ticks w) < one_hour) ->
     exists w',
       attempts client_ip 6 w
       = (Ok [true; true; true; true; true; false], w')).
Proof.
  split; [|exact six_attempts].
  intros client_ip w. split; [intros t; apply pruned_spec|].
  rewrite check_rate_limit_run. unfold rate_limited.
  destruct (Nat.leb_spec 5 (List.length (pruned client_ip w))) as [Hge|Hlt].
  - eexists _, _. split; [reflexivity|]. split; [|lia].
    intros _. split; [reflexivity|].
    split; [apply window_after_reject|].
    eexists. split; [reflexivity|]. split; reflexivity.
  - eexists _, _. split; [reflexivity|]. split; [lia|].
    intros _. split; [reflexivity|].
    split; [apply window_after_pass | reflexivity].
Qed.

Lemma C2_rate_limit_window_witness :
  (exists allowed w',
     _check_rate_limit (py "10.0.0.5") (busy_world (py "10.0.0.5"))
     = (Ok allowed, w') /\
     allowed = false /\
     window (py "10.0.0.5") w' = [0; 0; 0; 0; 0] /\
     List.length (security_audit_log w') = 1%nat)
  /\
  (exists w',
     attempts (py "10.0.0.5") 6
       (fresh_world (fun n => Z.of_nat n * 60000000) (fun _ _ => []))
     = (Ok [true; true; true; true; true; false], w')).
Proof.
  split.
  - destruct (proj1 C2_rate_limit_window (py "10.0.0.5")
                (busy_world (py "10.0.0.5")))
      as (_ & allowed & w' & Hrun & Hfull & _).
    exists allowed, w'. split; [exact Hrun|].
    destruct Hfull as (Hno & Hwin & e & Hlog & _); [vm_compute; lia|].
    split; [exact Hno|]. split; [exact Hwin|].
    rewrite Hlog. reflexivity.
  - apply (proj2 C2_rate_limit_window).
    + reflexivity.
    + intros i j Hij. cbn [fresh_world clock ticks]. unfold one_hour. lia.
Defined.

(** C3, the claim as worded fails: with 20 points taken for each occurrence
    of a word, [testtest] would score 55; the code takes 20 points once for
    a word however often it occurs and scores 75. *)
Lemma C3_counterexample :
  ~ (forall name, _calculate_security_score name = score_per_occurrence name).
Proof.
  intros H. specialize (H (py "testtest")). vm_compute in H. discriminate.
Qed.

(** C3 (amended).  For every name the score is 100 minus 10 if the name is
    shorter than 5, minus 5 if it has no digit, minus 15 if it has more than
    two hyphens, minus 20 for each of the words test, demo, temp, tmp that
    occurs in it (once per word), floored at 0; it lies in [0,100].  The
    score is a function of the name alone, reading neither the services
    nor the clock: a second call on the same name gives the same score. *)
Theorem C3_score_per_word :
  forall name,
    _calculate_security_score name
    = Z.max 0 (100 - length_penalty name - digit_penalty name
               - hyphen_penalty name - 20 * words_present name)
    /\ 0 <= _calculate_security_score name <= 100
    /\ (forall again, again = name ->
          _calculate_security_score again = _calculate_security_score name).
Proof.
  intros name.
  assert (E : _calculate_security_score name
    = Z.max 0 (100 - length_penalty name - digit_penalty name
               - hyphen_penalty name - 20 * words_present name)).
  { unfold _calculate_security_score, length_penalty, digit_penalty,
      hyphen_penalty, words_present, penalty, low_effort_patterns.
    cbn [map fold_left List.filter].
    destruct (List.length name <? 5)%nat, (negb (Str.has_digit name)),
      (2 <? Str.count_char Str.hyphen name)%nat,
      (Str.contains (py "test") name), (Str.contains (py "demo") name),
      (Str.contains (py "temp") name), (Str.contains (py "tmp") name);
      reflexivity. }
  split; [exact E|]. split; [|intros again ->; reflexivity].
  rewrite E. unfold length_penalty, digit_penalty, hyphen_penalty, penalty,
    words_present.
  destruct (List.length name <? 5)%nat, (negb (Str.has_digit name)),
    (2 <? Str.count_char Str.hyphen name)%nat; lia.
Qed.

Lemma C3_score_per_word_witness :
  _calculate_security_score (py "test" ++ py "test") = 75
  /\ _calculate_security_score (py "test" ++ py "test")
     = _calculate_security_score (py "testtest").
Proof.
  destruct (C3_score_per_word (py "testtest")) as (Hscore & _ & Hsame).
  split.
  - rewrite (Hsame (py "test" ++ py "test") eq_refl), Hscore. reflexivity.
  - apply Hsame. reflexivity.
Defined.

(** C4, the claim as worded fails: the two-character name [ab] is rejected
    for its length and the audit log is as empty afterwards as before. *)
Lemma C4_counterexample :
  ~ (forall name client_ip w r w',
       validate_subdomain_security name client_ip w = (Ok r, w') ->
       valid r = false ->
       exists e, security_audit_log w' = security_audit_log w ++ [e]).
Proof.
  intros H.
  destruct (H (py "ab") (py "10.0.0.5")
              (fresh_world (fun _ => 0) (fun _ _ => [])) _ _
              eq_refl eq_refl) as [e He].
  vm_compute in He. discriminate.
Qed.

(** C4 (amended).  The pipeline always returns a decision.  A rate-limit
    rejection appends exactly one event before it is returned, of type
    [rate_limit_violation], severity [high], threat type
    [rate_limit_violation], for the client that was refused.  A rejection
    for length or for format is returned with level MEDIUM and appends no
    event. *)
Theorem C4_only_rate_limit_is_logged :
  forall name client_ip w,
  exists r w',
    validate_subdomain_security name client_ip w = (Ok r, w') /\
    ((5 <= List.length (pruned client_ip w))%nat ->
       valid r = false /\
       security_level r = Some CRITICAL /\
       threat_detected r = Some true /\
       exists e,
         security_audit_log w' = security_audit_log w ++ [e] /\
         e_event_type e = "rate_limit_violation"%string /\
         e_severity e = SecurityLevel_value HIGH /\
         e_threat_type e = Some (ThreatType_value RATE_LIMIT_VIOLATION) /\
         e_client_ip e = client_ip) /\
    ((List.length (pruned client_ip w) < 5)%nat ->
     ((List.length name < 3)%nat \/ (63 < List.length name)%nat
      \/ Str.match_label name = false) ->
       valid r = false /\
       security_level r = Some MEDIUM /\
       security_audit_log w' = security_audit_log w).
Proof.
  intros name client_ip w.
  rewrite validate_subdomain_security_run. unfold rate_limited.
  destruct (Nat.leb_spec 5 (List.length (pruned client_ip w))) as [Hge|Hlt].
  - eexists _, _. split; [reflexivity|]. split; [|lia].
    intros _. repeat split. eexists. repeat split.
  - cbv zeta. unfold length_ok. rewrite negb_involutive.
    destruct (Nat.ltb_spec (List.length name) 3);
      [eexists _, _; split; [reflexivity|]; split; [lia|];
       intros _ _; repeat split|].
    destruct (Nat.ltb_spec 63 (List.length name));
      [eexists _, _; split; [reflexivity|]; split; [lia|];
       intros _ _; repeat split|].
    cbn [orb].
    destruct (Str.match_label name) eqn:Hfmt; cbn [negb];
      [|eexists _, _; split; [reflexivity|]; split; [lia|];
        intros _ _; repeat split].
    destruct (suspicious_token name), (blocked_word name), (lookalike name);
      eexists _, _; (split; [reflexivity|]); (split; [lia|]);
      intros _ [?|[?|?]]; try lia; discriminate.
Qed.

Lemma C4_only_rate_limit_is_logged_witness :
  (exists r w',
     validate_subdomain_security (py "brightideas9") (py "10.0.0.5")
       (busy_world (py "10.0.0.5")) = (Ok r, w') /\
     valid r = false /\ security_level r = Some CRITICAL /\
     List.length (security_audit_log w') = 1%nat)
  /\
  (exists r w',
     validate_subdomain_security (py "ab") (py "10.0.0.5")
       (fresh_world (fun _ => 0) (fun _ _ => [])) = (Ok r, w') /\
     valid r = false /\ security_level r = Some MEDIUM /\
     security_audit_log w' = []).
Proof.
  split.
  - destruct (C4_only_rate_limit_is_logged (py "brightideas9")
                (py "10.0.0.5") (busy_world (py "10.0.0.5")))
      as (r & w' & Hrun & Hloud & _).
    exists r, w'. split; [exact Hrun|].
    destruct Hloud as (Hv & Hl & _ & e & Hlog & _); [vm_compute; lia|].
    split; [exact Hv|]. split; [exact Hl|]. rewrite Hlog. reflexivity.
  - destruct (C4_only_rate_limit_is_logged (py "ab") (py "10.0.0.5")
                (fresh_world (fun _ => 0) (fun _ _ => [])))
      as (r & w' & Hrun & _ & Hquiet).
    exists r, w'. split; [exact Hrun|].
    apply Hquiet; [vm_compute; lia | left; vm_compute; lia].
Defined.





(** C6 (the code departs from the claim).  [admin-site] from a client whose
    window has room passes the length, format and suspicious-token stages
    and contains the blocked word [admin].  It is rejected, but not as the
    claim says: [_check_blocked_patterns] builds its [SecurityAudit] without
    [client_ip], the constructor raises, and the handler of
    [validate_subdomain_security] answers the generic rejection of level
    CRITICAL.  No [blocked_pattern] event reaches the log, which stays
    empty. *)
Theorem C6_blocked_word_leaves_no_event :
  forall clock entropy,
    let name := py "admin-site" in
    let w := fresh_world clock entropy in
    length_ok name = true /\
    Str.match_label name = true /\
    suspicious_token name = None /\
    blocked_word name = Some (py "admin") /\
    exists w',
      validate_subdomain_security name (py "10.0.0.5") w
      = (Ok (rejection "Security validation failed." CRITICAL (Some true)),
         w') /\
      security_audit_log w' = [].
Proof.
  intros clock entropy name w.
  assert (Hlen : length_ok name = true) by reflexivity.
  assert (Hfmt : Str.match_label name = true) by reflexivity.
  assert (Hsus : suspicious_token name = None) by reflexivity.
  assert (Hblk : blocked_word name = Some (py "admin")) by reflexivity.
  repeat (split; [assumption|]).
  eexists. split.
  - apply blocked_word_run; try assumption; [reflexivity | congruence].
  - reflexivity.
Qed.

(** C7, the claim as worded fails: no function of the score gives the level
    of every decision.  The length rejection of [ab] and a rate-limit
    rejection both carry no score, the first with level MEDIUM, the second
    with level CRITICAL. *)
Lemma C7_counterexample :
  ~ (exists level_of : option Z -> option SecurityLevel,
       forall name client_ip w r,
         fst (validate_subdomain_security name client_ip w) = Ok r ->
         security_level r = level_of (security_score r)).
Proof.
  intros [level_of H].
  pose proof (H (py "ab") (py "10.0.0.5")
                (fresh_world (fun _ => 0) (fun _ _ => [])) _ eq_refl) as H1.
  pose proof (H (py "ab") (py "10.0.0.5") (busy_world (py "10.0.0.5"))
                _ eq_refl) as H2.
  vm_compute in H1, H2. congruence.
Qed.

Lemma security_level_thresholds score :
  (80 <= score -> _get_security_level score = LOW) /\
  (60 <= score < 80 -> _get_security_level score = MEDIUM) /\
  (40 <= score < 60 -> _get_security_level score = HIGH) /\
  (score < 40 -> _get_security_level score = CRITICAL).
Proof.
  unfold _get_security_level.
  destruct (Z.leb_spec 80 score), (Z.leb_spec 60 score),
    (Z.leb_spec 40 score); repeat split; intros; (reflexivity || lia).
Qed.

(** C7 (amended).  The pipeline always returns a decision.  In an accepting
    one the score is the score of the name and the level is
    [_get_security_level] of that score: LOW from 80, MEDIUM from 60, HIGH
    from 40, CRITICAL below.  A rejecting one carries no score; its level is
    the constant that its rejection path writes. *)
Theorem C7_level_follows_score_when_valid :
  forall name client_ip w,
  exists r w',
    validate_subdomain_security name client_ip w = (Ok r, w') /\
    (valid r = true ->
       security_score r = Some (_calculate_security_score name) /\
       security_level r
       = Some (_get_security_level (_calculate_security_score name))) /\
    (valid r = false ->
       security_score r = None /\
       exists level, security_level r = Some level) /\
    (forall score,
       (80 <= score -> _get_security_level score = LOW) /\
       (60 <= score < 80 -> _get_security_level score = MEDIUM) /\
       (40 <= score < 60 -> _get_security_level score = HIGH) /\
       (score < 40 -> _get_security_level score = CRITICAL)).
Proof.
  intros name client_ip w.
  by_path name client_ip w;
    (eexists _, _; split; [reflexivity|];
     split; [|split; [|exact security_level_thresholds]];
     cbn; intros; try discriminate; eauto).
Qed.

Lemma C7_level_follows_score_when_valid_witness :
  (exists r w',
     validate_subdomain_security (py "brightideas9") (py "10.0.0.5")
       (fresh_world (fun _ => 0) (fun _ _ => [])) = (Ok r, w') /\
     security_score r = Some 100 /\ security_level r = Some LOW)
  /\
  (exists r w',
     validate_subdomain_security (py "ab") (py "10.0.0.5")
       (fresh_world (fun _ => 0) (fun _ _ => [])) = (Ok r, w') /\
     security_score r = None)
  /\ _get_security_level 85 = LOW
  /\ _get_security_level 70 = MEDIUM
  /\ _get_security_level 50 = HIGH
  /\ _get_security_level 10 = CRITICAL.
Proof.
  split; [|split].
  - destruct (C7_level_follows_score_when_valid (py "brightideas9")
                (py "10.0.0.5") (fresh_world (fun _ => 0) (fun _ _ => [])))
      as (r & w' & Hrun & Hvalid & _).
    exists r, w'. split; [exact Hrun|].
    apply Hvalid. vm_compute in Hrun. injection Hrun as <- _. reflexivity.
  - destruct (C7_level_follows_score_when_valid (py "ab")
                (py "10.0.0.5") (fresh_world (fun _ => 0) (fun _ _ => [])))
      as (r & w' & Hrun & _ & Hinvalid & _).
    exists r, w'. split; [exact Hrun|].
    apply Hinvalid. vm_compute in Hrun. injection Hrun as <- _. reflexivity.
  - destruct (C7_level_follows_score_when_valid [] []
                (fresh_world (fun _ => 0) (fun _ _ => [])))
      as (_ & _ & _ & _ & _ & Hlevels).
    split; [apply (Hlevels 85); lia|].
    split; [apply (Hlevels 70); lia|].
    split; [apply (Hlevels 50); lia | apply (Hlevels 10); lia].
Defined.

(** C8.  For every name, client and state the validation pipeline returns a
    decision, and a decision that marks [threat_detected] as true has
    [valid] false. *)
Theorem C8_threat_implies_invalid :
  forall name client_ip w,
  exists r w',
    validate_subdomain_security name client_ip w = (Ok r, w') /\
    (threat_detected r = Some true -> valid r = false).
Proof.
  intros name client_ip w.
  by_path name client_ip w;
    (eexists _, _; split; [reflexivity|]); cbn; congruence.
Qed.

Lemma C8_threat_implies_invalid_witness :
  exists r w',
    validate_subdomain_security (py "brightideas9") (py "10.0.0.5")
      (busy_world (py "10.0.0.5")) = (Ok r, w') /\
    threat_detected r = Some true /\ valid r = false.
Proof.
  destruct (C8_threat_implies_invalid (py "brightideas9") (py "10.0.0.5")
              (busy_world (py "10.0.0.5"))) as (r & w' & Hrun & Himp).
  exists r, w'. split; [exact Hrun|].
  assert (Hthreat : threat_detected r = Some true).
  { vm_compute in Hrun. injection Hrun as <- _. reflexivity. }
  split; [exact Hthreat | exact (Himp Hthreat)].
Defined.

(** C9 (the code departs from the claim).  With [acme123] in the registry,
    revoking it does not succeed: [security_service.SecurityAudit] is not
    an attribute of the instance, the [AttributeError] is raised before
    the [del], and the handler answers [success = false].  The entry is
    still there and no [subdomain_revocation] event is logged. *)
Theorem C9_revoke_keeps_the_entry :
  forall clock entropy,
    let w := one_subdomain clock entropy in
    Dict.mem (py "acme123") (active_subdomains w) = true /\
    exists r,
      revoke_subdomain (py "acme123") (py "10.0.0.5") w = (Ok r, w) /\
      rv_success r = false /\
      rv_error r =
        Some (py "Revocation failed: 'SecurityService' object has no attribute 'SecurityAudit'") /\
      Dict.lookup (py "acme123") (active_subdomains w) = Some sample_info /\
      security_audit_log w = [].
Proof.
  intros clock entropy w. split; [reflexivity|].
  eexists. split; [rewrite revoke_subdomain_run; reflexivity|].
  repeat split.
Qed.

(** ** The report *)

Lemma py_sum_from (l : list Z) (acc : Z) :
  fold_left Z.add l acc = acc + fold_right Z.add 0 l.
Proof.
  revert acc. induction l as [|x l IH]; intros acc;
    cbn [fold_left fold_right].
  - lia.
  - rewrite IH. lia.
Qed.

Lemma py_sum_total (l : list Z) : py_sum l = fold_right Z.add 0 l.
Proof. unfold py_sum. rewrite py_sum_from. lia. Qed.

Lemma py_sum_ones {A} (l : list A) :
  py_sum (map (fun _ => 1) l) = Z.of_nat (List.length l).
Proof.
  rewrite py_sum_total. induction l as [|x l IH]; [reflexivity|].
  cbn [map fold_right List.length]. rewrite IH. lia.
Qed.

(** The conditional expression divides only by a positive count. *)
Lemma average_run (float : Type) (float_div : Z -> Z -> float) a n w :
  (if 0 <? n then truediv float float_div a n else ret (Int 0)) w
  = if (0 <? n) && float_overflow a n then
      (Raise (OverflowError
                (py "integer division result too large for a float")), w)
    else (Ok (if 0 <? n then Float (float_div a n) else Int 0), w).
Proof.
  destruct (Z.ltb_spec 0 n); [|reflexivity]. cbn [andb].
  unfold truediv. destruct (Z.eqb_spec n 0); [lia|].
  destruct (float_overflow a n); reflexivity.
Qed.

Lemma float_limit_large : 101 <= float_limit.
Proof. apply Z.leb_le. vm_compute. reflexivity. Qed.

Lemma small_quotient_has_a_float a n :
  0 <= a <= 100 * n -> 0 < n -> float_overflow a n = false.
Proof.
  intros Ha Hn. unfold float_overflow. apply Z.leb_gt.
  rewrite (Z.abs_eq a), (Z.abs_eq n) by lia.
  pose proof float_limit_large as Hk. revert Hk.
  generalize float_limit. intros k Hk. nia.
Qed.

Lemma total_score_bound w :
  scores_in_range w ->
  0 <= total_score w <= 100 * Z.of_nat (List.length (active_subdomains w)).
Proof.
  unfold scores_in_range, total_score, Dict.values.
  induction (active_subdomains w) as [|[k info] rest IH];
    cbn [map snd fold_right List.length]; intros Hall.
  - lia.
  - inversion Hall as [|? ? Hinfo Hrest]; subst.
    specialize (IH Hrest). lia.
Qed.

(** The report of the deployment service, in full. *)
Lemma get_security_report_run (float : Type) (float_div : Z -> Z -> float)
    (float_round : float -> Z -> float) (w : World) :
  let n := Z.of_nat (List.length (active_subdomains w)) in
  get_security_report float float_div float_round w =
  if (0 <? n) && float_overflow (total_score w) n then
    (Raise (OverflowError
              (py "integer division result too large for a float")), w)
  else
    (Ok {| total_subdomains := n;
           average_security_score :=
             py_round float float_round
               (if 0 <? n then Float (float_div (total_score w) n)
                else Int 0) 2;
           ssl_configured_count := ssl_count w;
           recent_deployments :=
             skipn (List.length (Dict.keys (active_subdomains w)) - 5)
               (Dict.keys (active_subdomains w));
           security_alerts :=
             match _get_security_alerts w with
             | (Ok alerts, _) => alerts
             | (Raise _, _) => []
             end |}, w).
Proof.
  intros n. destruct (get_security_alerts_returns w) as [alerts Halerts].
  unfold get_security_report, bind, get.
  rewrite average_run, py_sum_total. fold (total_score w). fold n.
  destruct ((0 <? n) && float_overflow (total_score w) n); [reflexivity|].
  rewrite Halerts, py_sum_ones. reflexivity.
Qed.

(** C10.  Whatever the floating-point division and rounding are, the report
    never raises [ZeroDivisionError]: the division is reached only with a
    positive count.  On an empty registry the report is returned with the
    integer 0 as average and 0 as count.  When every registered score is
    one the scorer gives (between 0 and 100) the report is returned without
    changing the state, [ssl_configured_count] is the number of entries
    whose [ssl_configured] is true, and on a non-empty registry the average
    is the sum of the scores divided by their number, rounded to 2 places.
    The one exception the report can raise is the [OverflowError] of a
    quotient beyond the floats. *)
Theorem C10_report_never_divides_by_zero :
  forall (float : Type) (float_div : Z -> Z -> float)
         (float_round : float -> Z -> float) (w : World),
    (forall msg,
       fst (get_security_report float float_div float_round w)
       <> Raise (ZeroDivisionError msg)) /\
    (active_subdomains w = [] ->
       exists report,
         get_security_report float float_div float_round w = (Ok report, w) /\
         average_security_score report = Int 0 /\
         ssl_configured_count report = 0) /\
    (scores_in_range w ->
       exists report,
         get_security_report float float_div float_round w = (Ok report, w) /\
         ssl_configured_count report = ssl_count w /\
         (active_subdomains w <> [] ->
            average_security_score report
            = Float (float_round
                       (float_div (total_score w)
                          (Z.of_nat (List.length (active_subdomains w))))
                       2))) /\
    (active_subdomains w <> [] ->
     float_overflow (total_score w)
       (Z.of_nat (List.length (active_subdomains w))) = true ->
       exists msg,
         get_security_report float float_div float_round w
         = (Raise (OverflowError msg), w)).
Proof.
  intros float float_div float_round w.
  pose proof (get_security_report_run float float_div float_round w) as Hrun.
  cbv zeta in Hrun.
  set (n := Z.of_nat (List.length (active_subdomains w))) in *.
  split; [|split; [|split]].
  - intros msg. rewrite Hrun.
    destruct ((0 <? n) && float_overflow (total_score w) n); discriminate.
  - intros Hnone.
    assert (Hn : n = 0) by (unfold n; rewrite Hnone; reflexivity).
    rewrite Hrun, Hn. cbn [Z.ltb Z.compare andb].
    eexists. split; [reflexivity|]. split; [reflexivity|].
    cbn [ssl_configured_count]. unfold ssl_count. rewrite Hnone. reflexivity.
  - intros Hrange. pose proof (total_score_bound w Hrange) as Hbound.
    fold n in Hbound. rewrite Hrun.
    destruct (Z.ltb_spec 0 n) as [Hpos|Hzero]; cbn [andb].
    + rewrite (small_quotient_has_a_float _ _ Hbound Hpos).
      eexists. split; [reflexivity|]. split; [reflexivity|].
      intros _. reflexivity.
    + eexists. split; [reflexivity|]. split; [reflexivity|].
      intros Hsome. exfalso. apply Hsome.
      destruct (active_subdomains w); [reflexivity|].
      unfold n in Hzero. cbn [List.length] in Hzero. lia.
  - intros Hsome Hover. rewrite Hrun, Hover.
    destruct (Z.ltb_spec 0 n) as [_|Hzero]; cbn [andb].
    + eexists. reflexivity.
    + exfalso. apply Hsome.
      destruct (active_subdomains w); [reflexivity|].
      unfold n in Hzero. cbn [List.length] in Hzero. lia.
Qed.

Lemma two_subdomains_in_range : scores_in_range two_subdomains.
Proof.
  unfold scores_in_range, two_subdomains, Dict.values.
  cbn [active_subdomains set_active_subdomains map snd].
  repeat constructor; cbn [i_security_score sample_info other_info]; lia.
Qed.

Lemma C10_report_never_divides_by_zero_witness :
  (exists report,
     get_security_report (Z * Z) pair (fun x _ => x)
       (fresh_world (fun _ => 0) (fun _ _ => []))
     = (Ok report, fresh_world (fun _ => 0) (fun _ _ => [])) /\
     average_security_score report = Int 0 /\
     ssl_configured_count report = 0)
  /\
  (exists report,
     get_security_report (Z * Z) pair (fun x _ => x) two_subdomains
     = (Ok report, two_subdomains) /\
     ssl_configured_count report = 1 /\
     average_security_score report = Float (195, 2))
  /\
  (exists msg,
     get_security_report (Z * Z) pair (fun x _ => x) overflow_world
     = (Raise (OverflowError msg), overflow_world)).
Proof.
  split; [|split].
  - destruct (C10_report_never_divides_by_zero (Z * Z) pair (fun x _ => x)
                (fresh_world (fun _ => 0) (fun _ _ => [])))
      as (_ & Hempty & _).
    apply Hempty. reflexivity.
  - destruct (C10_report_never_divides_by_zero (Z * Z) pair (fun x _ => x)
                two_subdomains)
      as (_ & _ & Hrange & _).
    destruct (Hrange two_subdomains_in_range) as (report & Hrun & Hcount & Havg).
    exists report. split; [exact Hrun|].
    split; [exact Hcount|]. apply Havg. discriminate.
  - destruct (C10_report_never_divides_by_zero (Z * Z) pair (fun x _ => x)
                overflow_world)
      as (_ & _ & _ & Hover).
    apply Hover; [discriminate|]. vm_compute. reflexivity.
Defined.

(** * Further properties *)

(** ** The rate limiter *)

Lemma pruned_length client_ip w :
  (List.length (pruned client_ip w) <= List.length (window client_ip w))%nat.
Proof. unfold pruned. apply List.filter_length_le. Qed.

Lemma check_rate_limit_cases client_ip w :
  (rate_limited client_ip w = true /\
   (5 <= List.length (pruned client_ip w))%nat /\
   _check_rate_limit client_ip w = (Ok false, after_rate_reject client_ip w))
  \/
  (rate_limited client_ip w = false /\
   (List.length (pruned client_ip w) < 5)%nat /\
   _check_rate_limit client_ip w = (Ok true, after_rate_pass client_ip w)).
Proof.
  rewrite check_rate_limit_run. unfold rate_limited.
  destruct (Nat.leb_spec 5 (List.length (pruned client_ip w))); auto.
Qed.

Lemma window_other_pass client_ip other w :
  other <> client_ip ->
  window other (after_rate_pass client_ip w) = window other w.
Proof. intros H. apply (window_of_other client_ip other w H). Qed.

Lemma window_other_reject client_ip other w :
  other <> client_ip ->
  window other (after_rate_reject client_ip w) = window other w.
Proof. intros H. apply (window_of_other client_ip other w H). Qed.

(** X1.  A rate check keeps every window within the limit: if no client has
    more than five recorded attempts before the check, none has more than
    five after it, whoever was checked and whatever the answer. *)
Theorem rate_windows_stay_within_limit :
  forall client_ip w allowed w',
    _check_rate_limit client_ip w = (Ok allowed, w') ->
    (forall c, (List.length (window c w) <= 5)%nat) ->
    forall c, (List.length (window c w') <= 5)%nat.
Proof.
  intros client_ip w allowed w' Hrun Hinv c.
  pose proof (pruned_length client_ip w) as Hle.
  pose proof (Hinv client_ip) as Hmine.
  destruct (check_rate_limit_cases client_ip w)
    as [(_ & Hn & Hr)|(_ & Hn & Hr)];
    rewrite Hr in Hrun; injection Hrun as _ <-;
    destruct (decide (c = client_ip)) as [->|Hne].
  - rewrite window_after_reject. lia.
  - rewrite window_other_reject by assumption. apply Hinv.
  - rewrite window_after_pass, length_app. cbn. lia.
  - rewrite window_other_pass by assumption. apply Hinv.
Qed.

Lemma rate_windows_stay_within_limit_witness :
  (List.length
     (window (py "10.0.0.5")
        (after_rate_pass (py "10.0.0.5")
           (fresh_world (fun _ => 0%Z) (fun _ _ => [])))) <= 5)%nat.
Proof.
  apply (rate_windows_stay_within_limit (py "10.0.0.5")
           (fresh_world (fun _ => 0) (fun _ _ => [])) true).
  - reflexivity.
  - intros c. unfold window, fresh_world. cbn [rate_limit_store].
    rewrite lookup_empty. cbn. lia.
Defined.

Lemma pruned_none client_ip w :
  List.Forall (fun t => one_hour <= clock w (ticks w) - t)
    (window client_ip w) ->
  pruned client_ip w = [].
Proof.
  unfold pruned. induction 1 as [|t l Ht _ IH]; [reflexivity|].
  cbn [List.filter]. destruct (Z.ltb_spec (clock w (ticks w) - t) one_hour);
    [lia | exact IH].
Qed.

(** X2.  The limit wears off: when every recorded attempt of a client is at
    least one hour old at the time of the check, the check is granted
    however many attempts were recorded, the old attempts are forgotten
    and the window holds the time of this check alone; nothing is
    logged. *)
Theorem rate_limit_expires_after_an_hour :
  forall client_ip w,
    List.Forall (fun t => one_hour <= clock w (ticks w) - t)
      (window client_ip w) ->
    exists w',
      _check_rate_limit client_ip w = (Ok true, w') /\
      window client_ip w' = [clock w (ticks w)] /\
      security_audit_log w' = security_audit_log w.
Proof.
  intros client_ip w Hold.
  pose proof (pruned_none client_ip w Hold) as Hnone.
  destruct (check_rate_limit_cases client_ip w)
    as [(_ & Hn & _)|(_ & _ & Hr)].
  - rewrite Hnone in Hn. cbn in Hn. lia.
  - eexists. split; [exact Hr|].
    rewrite window_after_pass, Hnone. split; reflexivity.
Qed.


Lemma rate_limit_expires_after_an_hour_witness :
  exists w',
    _check_rate_limit (py "10.0.0.5") (stale_world (py "10.0.0.5"))
    = (Ok true, w') /\
    window (py "10.0.0.5") w' = [one_hour] /\
    security_audit_log w' = [].
Proof.
  assert (Hold : List.Forall
            (fun t => one_hour <= clock (stale_world (py "10.0.0.5"))
                                    (ticks (stale_world (py "10.0.0.5"))) - t)
            (window (py "10.0.0.5") (stale_world (py "10.0.0.5")))).
  { unfold window, stale_world. cbn [rate_limit_store clock ticks].
    rewrite lookup_singleton_eq. cbn [default].
    repeat constructor; unfold one_hour; lia. }
  exact (rate_limit_expires_after_an_hour (py "10.0.0.5")
           (stale_world (py "10.0.0.5")) Hold).
Defined.

(** X3.  A rate check for one client leaves the rest of the state alone:
    the windows of all other clients and the registry are as before, and
    the old audit log is the beginning of the new one, which is longer by
    at most one event. *)
Theorem rate_check_touches_one_window :
  forall client_ip w allowed w',
    _check_rate_limit client_ip w = (Ok allowed, w') ->
    (forall other, other <> client_ip -> window other w' = window other w) /\
    active_subdomains w' = active_subdomains w /\
    exists added,
      security_audit_log w' = security_audit_log w ++ added /\
      (List.length added <= 1)%nat.
Proof.
  intros client_ip w allowed w' Hrun.
  destruct (check_rate_limit_cases client_ip w)
    as [(_ & _ & Hr)|(_ & _ & Hr)];
    rewrite Hr in Hrun; injection Hrun as _ <-.
  - split; [intros; apply window_other_reject; assumption|].
    split; [reflexivity|]. eexists [_]. split; [reflexivity | cbn; lia].
  - split; [intros; apply window_other_pass; assumption|].
    split; [reflexivity|]. exists []. split; [|cbn; lia].
    cbn. rewrite app_nil_r. reflexivity.
Qed.

Lemma rate_check_touches_one_window_witness :
  window (py "10.0.0.6") (after_rate_reject (py "10.0.0.5")
                            (busy_world (py "10.0.0.5")))
  = window (py "10.0.0.6") (busy_world (py "10.0.0.5")).
Proof.
  assert (Hrun : _check_rate_limit (py "10.0.0.5") (busy_world (py "10.0.0.5"))
                 = (Ok false,
                    after_rate_reject (py "10.0.0.5")
                      (busy_world (py "10.0.0.5")))).
  { apply reject_step.
    - unfold window, busy_world. cbn [rate_limit_store].
      rewrite lookup_singleton_eq. cbn [default].
      repeat constructor; unfold recent, one_hour; cbn [clock ticks]; lia.
    - unfold window, busy_world. cbn [rate_limit_store].
      rewrite lookup_singleton_eq. cbn. lia. }
  destruct (rate_check_touches_one_window _ _ _ _ Hrun) as (Hothers & _).
  apply Hothers. intros H. apply (f_equal (fun l => nth 7 l 0%N)) in H.
  cbv in H. discriminate.
Defined.

(** ** What the format check lets through *)

Lemma label_char_is_ascii c :
  Str.is_label_char c = true -> (c < 128)%N.
Proof.
  unfold Str.is_label_char, Str.is_alnum, Str.is_lower, Str.is_digit,
    Str.hyphen.
  rewrite !orb_true_iff, !andb_true_iff, !N.leb_le, N.eqb_eq. lia.
Qed.

Lemma alnum_is_label_char c :
  Str.is_alnum c = true -> Str.is_label_char c = true.
Proof. unfold Str.is_label_char. intros ->. reflexivity. Qed.

Lemma is_label_chars s :
  Str.is_label s = true -> List.Forall (fun c => Str.is_label_char c = true) s.
Proof.
  destruct s as [|c rest]; [discriminate|]. cbn [Str.is_label].
  rewrite andb_true_iff. intros [Hc Hrest].
  constructor; [apply alnum_is_label_char; exact Hc|].
  destruct rest as [|d rest']; [constructor|].
  apply andb_true_iff in Hrest as [Hall _].
  apply List.Forall_forall. intros x Hx.
  rewrite forallb_forall in Hall. apply Hall. exact Hx.
Qed.

(** A text that matches is a label, or a label followed by one line feed. *)
Lemma match_label_shape s :
  Str.match_label s = true ->
  exists body,
    (s = body \/ s = body ++ [Str.newline]) /\ Str.is_label body = true.
Proof.
  unfold Str.match_label. rewrite orb_true_iff. intros [H|H].
  - exists s. split; [left; reflexivity | exact H].
  - destruct (List.rev s) as [|c r] eqn:Hrev; [discriminate|].
    apply andb_true_iff in H as [Hc Hr]. apply N.eqb_eq in Hc. subst c.
    exists (List.rev r). split; [right | exact Hr].
    rewrite <- (rev_involutive s), Hrev. reflexivity.
Qed.

Lemma match_label_is_ascii s :
  Str.match_label s = true -> List.Forall (fun c => (c < 128)%N) s.
Proof.
  intros H. destruct (match_label_shape s H) as (body & Hs & Hbody).
  pose proof (is_label_chars body Hbody) as Hchars.
  assert (Hb : List.Forall (fun c => (c < 128)%N) body).
  { eapply List.Forall_impl; [|exact Hchars].
    intros c Hc. apply label_char_is_ascii. exact Hc. }
  destruct Hs as [->| ->]; [exact Hb|].
  apply List.Forall_app. split; [exact Hb|].
  repeat constructor.
Qed.

Lemma contains_char c s :
  Str.contains [c] s = true -> In c s.
Proof.
  induction s as [|d s IH]; cbn [Str.contains Str.startswith].
  - discriminate.
  - rewrite andb_true_r, orb_true_iff, N.eqb_eq.
    intros [->|H]; [left; reflexivity | right; apply IH; exact H].
Qed.

Lemma no_high_char c s :
  (128 <= c)%N -> List.Forall (fun d => (d < 128)%N) s ->
  Str.contains [c] s = false.
Proof.
  intros Hc Hs. destruct (Str.contains [c] s) eqn:E; [|reflexivity].
  apply contains_char in E. rewrite List.Forall_forall in Hs.
  specialize (Hs c E). lia.
Qed.

Lemma format_excludes_lookalikes name :
  Str.match_label name = true -> lookalike name = None.
Proof.
  intros H. pose proof (match_label_is_ascii name H) as Hascii.
  unfold lookalike, suspicious_unicode. cbn [List.find].
  rewrite !no_high_char by (assumption || lia). reflexivity.
Qed.

(** X4.  The homograph stage cannot reject anything the input stage let
    through: for every name that [_validate_input] accepts,
    [_detect_homograph_attack] answers false and logs nothing, because the
    format check admits no code point above Basic Latin. *)
Theorem homograph_stage_never_fires_after_format_check :
  forall name w r w1,
    _validate_input name w = (Ok r, w1) ->
    valid r = true ->
    _detect_homograph_attack name w1 = (Ok false, w1).
Proof.
  intros name w r w1. rewrite validate_input_run.
  destruct (negb (length_ok name)); [intros [= <- _]; discriminate|].
  destruct (Str.match_label name) eqn:Hfmt; cbn [negb];
    [|intros [= <- _]; discriminate].
  destruct (suspicious_token name); [discriminate|].
  intros _ _. rewrite detect_homograph_attack_run.
  rewrite (format_excludes_lookalikes name Hfmt). reflexivity.
Qed.

Lemma homograph_stage_never_fires_after_format_check_witness :
  _detect_homograph_attack (py "brightideas9")
    (fresh_world (fun _ => 0) (fun _ _ => []))
  = (Ok false, fresh_world (fun _ => 0) (fun _ _ => [])).
Proof.
  apply (homograph_stage_never_fires_after_format_check (py "brightideas9")
           (fresh_world (fun _ => 0) (fun _ _ => [])) accepted_input);
    reflexivity.
Defined.

(** ** The pipeline as a whole *)

Lemma window_after_log client_ip f w :
  window client_ip (set_security_audit_log f (tick w)) = window client_ip w.
Proof. reflexivity. Qed.

(** X5.  Every validation that is not refused by the rate limiter uses up
    one slot of the client's window, whether the name is then accepted or
    rejected: afterwards the window is the pruned window followed by the
    time of the call. *)
Theorem validation_consumes_a_slot_even_when_it_rejects :
  forall name client_ip w r w',
    validate_subdomain_security name client_ip w = (Ok r, w') ->
    (List.length (pruned client_ip w) < 5)%nat ->
    window client_ip w' = pruned client_ip w ++ [clock w (ticks w)].
Proof.
  intros name client_ip w r w' Hrun Hroom.
  assert (Hrate : rate_limited client_ip w = false).
  { unfold rate_limited. apply Nat.leb_gt. exact Hroom. }
  revert Hrun. rewrite validate_subdomain_security_run, Hrate. cbv zeta.
  destruct (negb (length_ok name));
    [intros [= _ <-]; apply window_after_pass|].
  destruct (negb (Str.match_label name));
    [intros [= _ <-]; apply window_after_pass|].
  destruct (suspicious_token name), (blocked_word name), (lookalike name);
    intros [= _ <-];
    first [apply window_after_pass
          | rewrite window_after_log; apply window_after_pass].
Qed.

Lemma validation_consumes_a_slot_even_when_it_rejects_witness :
  exists r w',
    validate_subdomain_security (py "ab") (py "10.0.0.5")
      (fresh_world (fun _ => 42) (fun _ _ => [])) = (Ok r, w') /\
    valid r = false /\
    window (py "10.0.0.5") w' = [42].
Proof.
  eexists _, _. split; [reflexivity|]. split; [reflexivity|].
  apply (validation_consumes_a_slot_even_when_it_rejects (py "ab")
           (py "10.0.0.5") (fresh_world (fun _ => 42) (fun _ _ => []))
           (rejection "Subdomain must be between 3 and 63 characters."
              MEDIUM None)).
  - reflexivity.
  - unfold pruned, window, fresh_world. cbn [rate_limit_store].
    rewrite lookup_empty. cbn. lia.
Defined.

(** X6.  A name is accepted exactly when the client's window has room, the
    length is between 3 and 63, the format matches, and neither a
    suspicious token nor a blocked word occurs in it.  An accepted name
    gets the decision with its score, level and recommendations, and
    exactly one event is logged, of type [subdomain_validation]. *)
Theorem acceptance_exactly_when_all_stages_pass :
  forall name client_ip w r w',
    validate_subdomain_security name client_ip w = (Ok r, w') ->
    (valid r = true <->
       rate_limited client_ip w = false /\ length_ok name = true /\
       Str.match_label name = true /\ suspicious_token name = None /\
       blocked_word name = None) /\
    (valid r = true ->
       r = acceptance name /\
       exists timestamp,
         security_audit_log w'
         = security_audit_log w
           ++ [validation_entry name client_ip timestamp]).
Proof.
  intros name client_ip w r w'. rewrite validate_subdomain_security_run.
  destruct (rate_limited client_ip w);
    [intros [= <- _]; split; [split; [discriminate | intros [? _]; discriminate] | discriminate]|].
  cbv zeta.
  destruct (length_ok name); cbn [negb];
    [|intros [= <- _]; split;
      [split; [discriminate | intros (_ & ? & _); discriminate]
      | discriminate]].
  destruct (Str.match_label name) eqn:Hfmt; cbn [negb];
    [|intros [= <- _]; split;
      [split; [discriminate | intros (_ & _ & ? & _); discriminate]
      | discriminate]].
  rewrite (format_excludes_lookalikes name Hfmt).
  destruct (suspicious_token name), (blocked_word name);
    intros [= <- <-];
    (split;
     [split; [try discriminate; auto | intros (_ & _ & _ & ? & ?); try discriminate; reflexivity]
     | try discriminate]).
  intros _. split; [reflexivity|]. eexists. reflexivity.
Qed.

Lemma acceptance_exactly_when_all_stages_pass_witness :
  exists w',
    validate_subdomain_security (py "brightideas9") (py "10.0.0.5")
      (fresh_world (fun _ => 0) (fun _ _ => []))
    = (Ok (acceptance (py "brightideas9")), w') /\
    List.length (security_audit_log w') = 1%nat.
Proof.
  eexists. split; [reflexivity|].
  destruct (acceptance_exactly_when_all_stages_pass (py "brightideas9")
              (py "10.0.0.5") (fresh_world (fun _ => 0) (fun _ _ => []))
              _ _ eq_refl) as (_ & Hlog).
  destruct (Hlog eq_refl) as (_ & timestamp & Happ).
  rewrite Happ. reflexivity.
Defined.

(** X7.  Validation only ever appends to the audit log, at most one event
    per call, and the event is either the [rate_limit_violation] of the
    refused client or the [subdomain_validation] of the accepted name; it
    never writes to the registry. *)
Theorem validation_appends_at_most_one_known_event :
  forall name client_ip w r w',
    validate_subdomain_security name client_ip w = (Ok r, w') ->
    active_subdomains w' = active_subdomains w /\
    (security_audit_log w' = security_audit_log w \/
     (exists timestamp,
        security_audit_log w'
        = security_audit_log w ++ [rate_limit_entry client_ip timestamp]) \/
     (exists timestamp,
        security_audit_log w'
        = security_audit_log w
          ++ [validation_entry name client_ip timestamp])).
Proof.
  intros name client_ip w r w'.
  by_path name client_ip w; intros [= _ <-]; (split; [reflexivity|]);
    try (left; reflexivity);
    try (right; left; eexists; reflexivity);
    right; right; eexists; reflexivity.
Qed.

Lemma validation_appends_at_most_one_known_event_witness :
  active_subdomains
    (snd (validate_subdomain_security (py "admin-site") (py "10.0.0.5")
            (one_subdomain (fun _ => 0) (fun _ _ => []))))
  = [(py "acme123", sample_info)].
Proof.
  destruct (validate_subdomain_security (py "admin-site") (py "10.0.0.5")
              (one_subdomain (fun _ => 0) (fun _ _ => [])))
    as [o w'] eqn:Hrun.
  assert (Hr : o = Ok internal_failure).
  { apply (f_equal fst) in Hrun. cbn [fst] in Hrun. rewrite <- Hrun.
    reflexivity. }
  subst o.
  destruct (validation_appends_at_most_one_known_event _ _ _ _ _ Hrun)
    as (Hreg & _).
  cbn [snd]. rewrite Hreg. reflexivity.
Defined.

Lemma accepted_passes_format name client_ip w r w' :
  validate_subdomain_security name client_ip w = (Ok r, w') ->
  valid r = true ->
  length_ok name = true /\ Str.match_label name = true.
Proof.
  rewrite validate_subdomain_security_run.
  destruct (rate_limited client_ip w); [intros [= <- _]; discriminate|].
  cbv zeta.
  destruct (length_ok name); cbn [negb]; [|intros [= <- _]; discriminate].
  destruct (Str.match_label name); cbn [negb];
    [|intros [= <- _]; discriminate].
  intros _ _. split; reflexivity.
Qed.

(** X8.  What an accepted name looks like: it has between 3 and 63 code
    points and consists of lower-case letters, digits and hyphens, except
    that its last code point may be a line feed, which the [$] of the
    format check lets through. *)
Theorem accepted_names_are_labels_up_to_a_final_line_feed :
  forall name client_ip w r w',
    validate_subdomain_security name client_ip w = (Ok r, w') ->
    valid r = true ->
    (3 <= List.length name <= 63)%nat /\
    exists body,
      (name = body \/ name = body ++ [Str.newline]) /\
      List.Forall (fun c => Str.is_label_char c = true) body.
Proof.
  intros name client_ip w r w' Hrun Hvalid.
  destruct (accepted_passes_format _ _ _ _ _ Hrun Hvalid) as [Hlen Hfmt].
  split.
  - unfold length_ok in Hlen. rewrite negb_true_iff, orb_false_iff in Hlen.
    destruct Hlen as [H3 H63].
    apply Nat.ltb_ge in H3. apply Nat.ltb_ge in H63. lia.
  - destruct (match_label_shape name Hfmt) as (body & Hshape & Hbody).
    exists body. split; [exact Hshape | apply is_label_chars; exact Hbody].
Qed.

Lemma accepted_names_are_labels_up_to_a_final_line_feed_witness :
  exists w',
    validate_subdomain_security (py "shop9" ++ [Str.newline]) (py "10.0.0.5")
      (fresh_world (fun _ => 0) (fun _ _ => []))
    = (Ok (acceptance (py "shop9" ++ [Str.newline])), w') /\
    (3 <= List.length (py "shop9" ++ [Str.newline]) <= 63)%nat.
Proof.
  eexists. split; [reflexivity|].
  apply (accepted_names_are_labels_up_to_a_final_line_feed
           (py "shop9" ++ [Str.newline]) (py "10.0.0.5")
           (fresh_world (fun _ => 0%Z) (fun _ _ => []))
           (acceptance (py "shop9" ++ [Str.newline])) _ eq_refl eq_refl).
Defined.

(** X9.  The recommendations follow the level: a score of level LOW gets
    none, MEDIUM one, HIGH two and CRITICAL all three. *)
Theorem recommendations_grow_with_the_level :
  forall score,
    List.length (_get_security_recommendations score)
    = match _get_security_level score with
      | LOW => 0%nat | MEDIUM => 1%nat | HIGH => 2%nat | CRITICAL => 3%nat
      end.
Proof.
  intros score. unfold _get_security_recommendations, _get_security_level.
  destruct (Z.leb_spec 80 score), (Z.leb_spec 60 score),
    (Z.leb_spec 40 score), (Z.ltb_spec score 80), (Z.ltb_spec score 60),
    (Z.ltb_spec score 40); try lia; reflexivity.
Qed.

(** X10.  [_get_ssl_recommendations] is silent in exactly one case: the
    certificate is valid, does not expire soon, has a strong cipher and a
    proper SAN, and the check [no_weak_protocols] is false.  When no weak
    protocol is present the list is never empty. *)
Theorem ssl_recommendations_empty_iff :
  forall checks,
    _get_ssl_recommendations checks = [] <->
    certificate_valid checks = true /\ expires_soon checks = false /\
    strong_cipher checks = true /\ proper_san checks = true /\
    no_weak_protocols checks = false.
Proof.
  intros [cv es sc ps nw]. unfold _get_ssl_recommendations.
  cbn [certificate_valid expires_soon strong_cipher proper_san
       no_weak_protocols].
  destruct cv, es, sc, ps, nw; cbn; split;
    try discriminate; try (intros (? & ? & ? & ? & ?); discriminate);
    auto.
Qed.

(** ** Name generation *)






Lemma ssl_recommendations_empty_iff_witness :
  _get_ssl_recommendations
    {| certificate_valid := true; expires_soon := false;
       strong_cipher := true; proper_san := true;
       no_weak_protocols := false |} = [].
Proof.
  apply (proj2 (ssl_recommendations_empty_iff
                  {| certificate_valid := true; expires_soon := false;
                     strong_cipher := true; proper_san := true;
                     no_weak_protocols := false |})).
  repeat split.
Defined.

(** ** Reports and status *)

Lemma get_security_alerts_run w :
  _get_security_alerts w =
  (Ok (ssl_expiration_alert ::
       flat_map (fun '(subdomain, info) =>
                   if i_security_score info <? 60
                   then [low_score_alert subdomain] else [])
                (active_subdomains w)), w).
Proof. reflexivity. Qed.

Lemma low_alerts_count (active : list (str * subdomain_info)) :
  List.length
    (flat_map (fun '(subdomain, info) =>
                 if i_security_score info <? 60
                 then [low_score_alert subdomain] else [])
              active)
  = List.length
      (List.filter (fun info => i_security_score info <? 60)
         (Dict.values active)).
Proof.
  induction active as [|[k info] rest IH]; [reflexivity|].
  cbn [flat_map Dict.values map snd List.filter].
  unfold Dict.values in IH. rewrite length_app, IH.
  destruct (i_security_score info <? 60); reflexivity.
Qed.

(** X14.  The alerts always begin with the [ssl_expiration] alert, whatever
    the registry holds (the SSL check never delivers certificate data, and
    the missing expiry counts as 0 days); after it comes one
    [low_security_score] alert for each entry scoring below 60.  The state
    is not changed. *)
Theorem alerts_always_warn_about_ssl_expiry :
  forall w,
  exists low,
    _get_security_alerts w = (Ok (ssl_expiration_alert :: low), w) /\
    List.Forall (fun a => a_type a = "low_security_score"%string) low /\
    List.length low
    = List.length
        (List.filter (fun info => i_security_score info <? 60)
           (Dict.values (active_subdomains w))).
Proof.
  intros w. eexists. split; [apply get_security_alerts_run|].
  split; [|apply low_alerts_count].
  apply List.Forall_forall. intros a Ha.
  apply in_flat_map in Ha as ([k info] & _ & Ha).
  destruct (i_security_score info <? 60); [|destruct Ha].
  destruct Ha as [<-|[]]. reflexivity.
Qed.

Lemma ssl_count_le_length (l : list subdomain_info) :
  (List.length (List.filter i_ssl_configured l) <= List.length l)%nat.
Proof. apply List.filter_length_le. Qed.

(** X15.  When every registered score is one the scorer gives, the
    deployment report is returned, [total_subdomains] is the number of
    entries, [ssl_configured_count] lies between 0 and it, and
    [recent_deployments] is the end of the registry's names in insertion
    order: the last five, or all of them when there are fewer. *)
Theorem report_lists_the_last_five_names :
  forall (float : Type) (float_div : Z -> Z -> float)
         (float_round : float -> Z -> float) (w : World),
    scores_in_range w ->
    exists report,
      get_security_report float float_div float_round w = (Ok report, w) /\
      total_subdomains report
      = Z.of_nat (List.length (active_subdomains w)) /\
      0 <= ssl_configured_count report <= total_subdomains report /\
      exists earlier,
        Dict.keys (active_subdomains w)
        = earlier ++ recent_deployments report /\
        List.length (recent_deployments report)
        = Nat.min 5 (List.length (active_subdomains w)).
Proof.
  intros float float_div float_round w Hrange.
  pose proof (total_score_bound w Hrange) as Hbound.
  rewrite get_security_report_run. cbv zeta.
  assert (Hfits : (0 <? Z.of_nat (List.length (active_subdomains w)))
                  && float_overflow (total_score w)
                       (Z.of_nat (List.length (active_subdomains w)))
                  = false).
  { destruct (Z.ltb_spec 0 (Z.of_nat (List.length (active_subdomains w))))
      as [Hpos|_]; [|reflexivity].
    cbn [andb]. apply small_quotient_has_a_float; assumption. }
  rewrite Hfits. eexists. split; [reflexivity|].
  cbn [total_subdomains ssl_configured_count recent_deployments].
  split; [reflexivity|]. split.
  - unfold ssl_count.
    pose proof (ssl_count_le_length (Dict.values (active_subdomains w))) as H.
    unfold Dict.values in *. rewrite length_map in H. lia.
  - exists (firstn (List.length (Dict.keys (active_subdomains w)) - 5)
              (Dict.keys (active_subdomains w))).
    split; [symmetry; apply firstn_skipn|].
    rewrite length_skipn. unfold Dict.keys. rewrite length_map. lia.
Qed.

Lemma report_lists_the_last_five_names_witness :
  exists report,
    get_security_report (Z * Z) pair (fun x _ => x) two_subdomains
    = (Ok report, two_subdomains) /\
    total_subdomains report = 2 /\
    recent_deployments report = [py "acme123"; py "zeta456"].
Proof.
  destruct (report_lists_the_last_five_names (Z * Z) pair (fun x _ => x)
              two_subdomains two_subdomains_in_range)
    as (report & Hrun & Htotal & _).
  exists report. split; [exact Hrun|]. split; [exact Htotal|].
  rewrite get_security_report_run in Hrun. cbv zeta in Hrun.
  assert (Hfits : (0 <? Z.of_nat (List.length (active_subdomains two_subdomains)))
                  && float_overflow (total_score two_subdomains)
                       (Z.of_nat
                          (List.length (active_subdomains two_subdomains)))
                  = false) by (vm_compute; reflexivity).
  rewrite Hfits in Hrun. injection Hrun as <-. reflexivity.
Defined.

(** X16.  [get_deployment_status] finds a name exactly when it is a key of
    the registry.  For a missing name it answers [exists = False] with
    "Subdomain not found" and changes nothing; for a registered name it
    reports the stored score, creation time and headers and the URL
    [https://<name>.webai.studio], and only reads the clock once. *)
Theorem deployment_status_reads_the_registry :
  forall name w,
  exists status w',
    get_deployment_status name w = (Ok status, w') /\
    ds_exists status = Dict.mem name (active_subdomains w) /\
    active_subdomains w' = active_subdomains w /\
    security_audit_log w' = security_audit_log w /\
    (Dict.lookup name (active_subdomains w) = None ->
       ds_error status = Some (py "Subdomain not found") /\ w' = w) /\
    (forall info,
       Dict.lookup name (active_subdomains w) = Some info ->
       ds_security_score status = Some (i_security_score info) /\
       ds_created_at status = Some (i_created_at info) /\
       ds_security_headers status = Some (i_security_headers info) /\
       ds_full_url status
       = Some (py "https://" ++ name ++ py ".webai.studio") /\
       w' = tick w).
Proof.
  intros name w. rewrite get_deployment_status_run. unfold Dict.mem.
  destruct (Dict.lookup name (active_subdomains w)) as [info|];
    eexists _, _; (split; [reflexivity|]); repeat split;
    try discriminate; intros; try congruence.
  all: match goal with H : Some _ = Some _ |- _ => injection H as <- end;
       reflexivity.
Qed.

Lemma deployment_status_reads_the_registry_witness :
  exists status w',
    get_deployment_status (py "acme123")
      (one_subdomain (fun _ => 0) (fun _ _ => [])) = (Ok status, w') /\
    ds_security_score status = Some 100 /\
    ds_full_url status = Some (py "https://acme123.webai.studio").
Proof.
  destruct (deployment_status_reads_the_registry (py "acme123")
              (one_subdomain (fun _ => 0) (fun _ _ => [])))
    as (status & w' & Hrun & _ & _ & _ & _ & Hfound).
  exists status, w'. split; [exact Hrun|].
  destruct (Hfound sample_info eq_refl) as (Hscore & _ & _ & Hurl & _).
  split; [exact Hscore | exact Hurl].
Defined.

(** X17.  After a name has been registered, its status reports the score it
    was registered with; the status of every other name is what it was. *)
Theorem status_after_registration :
  forall name info w,
    let w1 := set_active_subdomains (Dict.set name info) w in
    (exists status w',
       get_deployment_status name w1 = (Ok status, w') /\
       ds_exists status = true /\
       ds_security_score status = Some (i_security_score info)) /\
    (forall other,
       other <> name ->
       fst (get_deployment_status other w1)
       = fst (get_deployment_status other w)).
Proof.
  intros name info w w1. split.
  - rewrite get_deployment_status_run. unfold w1.
    cbn [active_subdomains set_active_subdomains].
    rewrite lookup_set_same. eexists _, _. repeat split.
  - intros other Hne. rewrite !get_deployment_status_run. unfold w1.
    cbn [active_subdomains set_active_subdomains clock ticks].
    rewrite (lookup_set_other name other info _ Hne).
    destruct (Dict.lookup other (active_subdomains w)); reflexivity.
Qed.

Lemma status_after_registration_witness :
  fst (get_deployment_status (py "acme123")
         (set_active_subdomains (Dict.set (py "zeta456") other_info)
            (one_subdomain (fun _ => 0) (fun _ _ => []))))
  = fst (get_deployment_status (py "acme123")
           (one_subdomain (fun _ => 0) (fun _ _ => []))).
Proof.
  apply (proj2 (status_after_registration (py "zeta456") other_info
                  (one_subdomain (fun _ => 0) (fun _ _ => [])))).
  intros H. apply (f_equal (fun l => nth 0 l 0%N)) in H. cbv in H.
  discriminate.
Defined.

(** ** The audit report *)

Lemma counts_get_set_same k n d default :
  Counts.get k default (Counts.set k n d) = n.
Proof.
  induction d as [|[k' n'] d IH]; cbn.
  - rewrite String.eqb_refl. reflexivity.
  - destruct (String.eqb k k') eqn:E; cbn.
    + rewrite String.eqb_refl. reflexivity.
    + rewrite E. exact IH.
Qed.

Lemma counts_get_set_other k k' n d default :
  k' <> k ->
  Counts.get k' default (Counts.set k n d) = Counts.get k' default d.
Proof.
  intros Hne. induction d as [|[k0 n0] d IH]; cbn.
  - destruct (String.eqb_spec k' k); [congruence | reflexivity].
  - destruct (String.eqb_spec k k0) as [->|Hk]; cbn.
    + destruct (String.eqb_spec k' k0); [congruence | reflexivity].
    + destruct (String.eqb k' k0); [reflexivity | exact IH].
Qed.

Lemma counts_set_keys k n d x :
  In x (map fst (Counts.set k n d)) -> x = k \/ In x (map fst d).
Proof.
  induction d as [|[k0 n0] d IH]; cbn.
  - intros [<-|[]]. left. reflexivity.
  - destruct (String.eqb_spec k k0) as [->|Hk]; cbn.
    + intros [<-|H]; auto.
    + intros [<-|H]; [auto|]. destruct (IH H); auto.
Qed.

Lemma counts_keys_set k n d :
  List.NoDup (map fst d) -> List.NoDup (map fst (Counts.set k n d)).
Proof.
  induction d as [|[k0 n0] d IH]; cbn.
  - intros _. constructor; [intros [] | constructor].
  - intros Hd. inversion Hd as [|? ? Hnot Hrest]; subst.
    destruct (String.eqb_spec k k0) as [->|Hk]; cbn.
    + constructor; assumption.
    + constructor; [|apply IH; assumption].
      intros H. destruct (counts_set_keys k n d k0 H);
        [congruence | contradiction].
Qed.

Lemma threat_summary_run w :
  _get_threat_summary w = (Ok (fold_left count_step (security_audit_log w) []), w).
Proof. reflexivity. Qed.

Lemma events_of_threat_cons threat e log :
  events_of_threat threat (e :: log)
  = (match threat_of e with
     | Some t => if String.eqb threat t then 1 else 0
     | None => 0
     end) + events_of_threat threat log.
Proof.
  unfold events_of_threat. cbn [List.filter].
  destruct (threat_of e) as [t|]; [destruct (String.eqb threat t)|];
    cbn [List.length]; lia.
Qed.

Lemma fold_count threat log acc :
  Counts.get threat 0 (fold_left count_step log acc)
  = Counts.get threat 0 acc + events_of_threat threat log.
Proof.
  revert acc. induction log as [|e log IH]; intros acc.
  - unfold events_of_threat. cbn. lia.
  - cbn [fold_left]. rewrite IH, events_of_threat_cons.
    unfold count_step. destruct (threat_of e) as [t|]; [|lia].
    destruct (String.eqb_spec threat t) as [->|Hne].
    + rewrite counts_get_set_same. lia.
    + rewrite counts_get_set_other by assumption. lia.
Qed.

Lemma fold_keys log acc :
  List.NoDup (map fst acc) ->
  List.NoDup (map fst (fold_left count_step log acc)).
Proof.
  revert acc. induction log as [|e log IH]; intros acc Hacc; [exact Hacc|].
  cbn [fold_left]. apply IH. unfold count_step.
  destruct (threat_of e); [apply counts_keys_set|]; exact Hacc.
Qed.

(** X18.  The threat summary counts the log: for every threat type, its
    count is the number of logged events of that type (0, the default,
    when there is none), events without a threat type are not counted, no
    threat type is listed twice, and the state is not changed. *)
Theorem threat_summary_counts_events :
  forall w,
  exists summary,
    _get_threat_summary w = (Ok summary, w) /\
    List.NoDup (map fst summary) /\
    forall threat,
      Counts.get threat 0 summary
      = events_of_threat threat (security_audit_log w).
Proof.
  intros w. eexists. split; [apply threat_summary_run|]. split.
  - apply fold_keys. constructor.
  - intros threat. rewrite fold_count. cbn. lia.
Qed.


Lemma audit_report_run w :
  audit_get_security_report w =
  (Ok {| total_events := Z.of_nat (List.length (security_audit_log w));
         critical_events :=
           events_of_severity "critical" (security_audit_log w);
         high_events := events_of_severity "high" (security_audit_log w);
         audit_security_score :=
           Z.max 0 (100
                    - events_of_severity "critical" (security_audit_log w) * 20
                    - events_of_severity "high" (security_audit_log w) * 10);
         recent_events :=
           skipn (List.length (security_audit_log w) - 10)
             (security_audit_log w);
         threat_summary :=
           fold_left count_step (security_audit_log w) [] |}, w).
Proof. reflexivity. Qed.



Lemma events_of_severity_app level log added :
  events_of_severity level (log ++ added)
  = events_of_severity level log + events_of_severity level added.
Proof.
  unfold events_of_severity. rewrite List.filter_app, length_app. lia.
Qed.

Lemma severity_counts_after_validation name client_ip w r w' :
  validate_subdomain_security name client_ip w = (Ok r, w') ->
  events_of_severity "critical" (security_audit_log w')
  = events_of_severity "critical" (security_audit_log w) /\
  events_of_severity "high" (security_audit_log w')
  = events_of_severity "high" (security_audit_log w)
    + (if rate_limited client_ip w then 1 else 0).
Proof.
  rewrite validate_subdomain_security_run.
  destruct (rate_limited client_ip w).
  - intros [= _ <-].
    change (security_audit_log (after_rate_reject client_ip w))
      with (security_audit_log w
            ++ [rate_limit_entry client_ip (clock w (S (ticks w)))]).
    rewrite !events_of_severity_app.
    split; [change (events_of_severity "critical" [rate_limit_entry client_ip (clock w (S (ticks w)))]) with 0
           |change (events_of_severity "high" [rate_limit_entry client_ip (clock w (S (ticks w)))]) with 1]; lia.
  - cbv zeta. intros Hrun.
    assert (Hsame : security_audit_log w' = security_audit_log w \/
                    exists timestamp,
                      security_audit_log w'
                      = security_audit_log w
                        ++ [validation_entry name client_ip timestamp]).
    { revert Hrun.
      destruct (negb (length_ok name)); [intros [= _ <-]; left; reflexivity|].
      destruct (negb (Str.match_label name));
        [intros [= _ <-]; left; reflexivity|].
      destruct (suspicious_token name), (blocked_word name), (lookalike name);
        intros [= _ <-];
        first [left; reflexivity | right; eexists; reflexivity]. }
    destruct Hsame as [->|(timestamp & ->)]; [lia|].
    rewrite !events_of_severity_app.
    change (events_of_severity "critical"
              [validation_entry name client_ip timestamp]) with 0.
    change (events_of_severity "high"
              [validation_entry name client_ip timestamp]) with 0.
    lia.
Qed.

(** X20.  Only a refusal by the rate limiter weighs on the service's
    score.  After a validation call the number of critical events is what
    it was, and the number of high events is one more when the call was
    refused for the rate limit and unchanged otherwise, so a refusal takes
    10 points off a score that was still above 0 and any other outcome
    leaves the score alone. *)
Theorem only_rate_limit_refusals_lower_the_audit_score :
  forall name client_ip w r w',
    validate_subdomain_security name client_ip w = (Ok r, w') ->
    exists before after,
      audit_get_security_report w = (Ok before, w) /\
      audit_get_security_report w' = (Ok after, w') /\
      critical_events after = critical_events before /\
      high_events after
      = high_events before + (if rate_limited client_ip w then 1 else 0) /\
      audit_security_score after
      = if rate_limited client_ip w
        then Z.max 0 (100 - critical_events before * 20
                      - high_events before * 10 - 10)
        else audit_security_score before.
Proof.
  intros name client_ip w r w' Hrun.
  destruct (severity_counts_after_validation _ _ _ _ _ Hrun) as [Hc Hh].
  rewrite !audit_report_run. eexists _, _.
  split; [reflexivity|]. split; [reflexivity|].
  cbn [critical_events high_events audit_security_score].
  rewrite Hc, Hh. split; [reflexivity|]. split; [reflexivity|].
  destruct (rate_limited client_ip w); lia.
Qed.

Lemma only_rate_limit_refusals_lower_the_audit_score_witness :
  exists before after,
    audit_get_security_report (busy_world (py "10.0.0.5"))
    = (Ok before, busy_world (py "10.0.0.5")) /\
    audit_security_score before = 100 /\
    audit_get_security_report
      (after_rate_reject (py "10.0.0.5") (busy_world (py "10.0.0.5")))
    = (Ok after,
       after_rate_reject (py "10.0.0.5") (busy_world (py "10.0.0.5"))) /\
    audit_security_score after = 90.
Proof.
  assert (Hrun : validate_subdomain_security (py "shop9") (py "10.0.0.5")
                   (busy_world (py "10.0.0.5"))
                 = (Ok (rejection "Rate limit exceeded. Please try again later."
                          CRITICAL (Some true)),
                    after_rate_reject (py "10.0.0.5")
                      (busy_world (py "10.0.0.5")))).
  { rewrite validate_subdomain_security_run.
    assert (Hfull : rate_limited (py "10.0.0.5") (busy_world (py "10.0.0.5"))
                    = true).
    { unfold rate_limited, pruned, window, busy_world.
      cbn [rate_limit_store clock ticks]. rewrite lookup_singleton_eq.
      reflexivity. }
    rewrite Hfull. reflexivity. }
  destruct (only_rate_limit_refusals_lower_the_audit_score _ _ _ _ _ Hrun)
    as (before & after & Hb & Ha & _ & _ & Hscore).
  exists before, after. split; [exact Hb|].
  rewrite audit_report_run in Hb. injection Hb as <-.
  split; [reflexivity|]. split; [exact Ha|].
  rewrite Hscore.
  assert (Hfull : rate_limited (py "10.0.0.5") (busy_world (py "10.0.0.5"))
                  = true).
  { unfold rate_limited, pruned, window, busy_world.
    cbn [rate_limit_store clock ticks]. rewrite lookup_singleton_eq.
    reflexivity. }
  rewrite Hfull. reflexivity.
Defined.

(** ** What the missing [client_ip] and the scan table entail *)

(** X21.  SSL is never reported as configured.  For every domain
    [verify_wildcard_ssl_security] answers [secure = False] without
    certificate data and logs no [ssl_verification] event, although the
    simulated certificate passes four of its five checks; hence
    [_configure_wildcard_ssl] answers [success = False] with
    "SSL certificate validation failed" and no recommendations, for every
    subdomain and in every state. *)
Theorem ssl_is_never_configured :
  forall domain subdomain_name w,
  exists verification result,
    verify_wildcard_ssl_security domain w = (Ok verification, w) /\
    secure verification = false /\
    v_certificate_info verification = None /\
    v_security_score verification = None /\
    _configure_wildcard_ssl subdomain_name w = (Ok result, w) /\
    ssl_success result = false /\
    ssl_error result = Some (py "SSL certificate validation failed") /\
    ssl_recommendations result = Some [].
Proof.
  intros domain subdomain_name w. eexists _, _.
  split; [apply verify_wildcard_ssl_security_run|].
  repeat split.
Qed.

(** X22.  No deployment passes its own scan.  The scan table lists
    [rate_limiting] as "configured", which is not "passed", so
    [_run_security_scan] always reports that one issue and
    [_deploy_to_secure_environment] always answers [success = False] with
    "Security scan failed", whatever the project, the name and the
    environment; neither reads the clock nor changes the state. *)
Theorem deployment_never_passes_its_scan :
  forall project_id subdomain_name isolated_env security_config w,
  exists scan result,
    _run_security_scan subdomain_name w = (Ok scan, w) /\
    passed scan = false /\
    issues scan = ["rate_limiting: configured"%string] /\
    scan_security_score scan = 85 /\
    _deploy_to_secure_environment project_id subdomain_name isolated_env
      security_config w = (Ok result, w) /\
    d_success result = false /\
    d_error result = Some (py "Security scan failed") /\
    security_issues result = Some ["rate_limiting: configured"%string].
Proof.
  intros project_id subdomain_name isolated_env security_config w.
  eexists _, _. split; [reflexivity|]. repeat split.
Qed.

(** X23.  No isolated environment is ever created.  For every path and
    project [create_isolated_environment] draws its security token, fails
    to build the audit record and answers [success = False] with the text
    of the [TypeError]; the token is lost, nothing is logged and no path
    is returned. *)
Theorem isolated_environment_is_never_created :
  forall deployment_path project_id w,
  exists env,
    create_isolated_environment deployment_path project_id w
    = (Ok env, draw w) /\
    env_success env = false /\
    env_error env = Some (exn_str missing_client_ip) /\
    isolated_path env = None /\
    security_token env = None /\
    security_audit_log (draw w) = security_audit_log w.
Proof.
  intros deployment_path project_id w. eexists. split; [reflexivity|].
  repeat split.
Qed.

(** X24.  Provisioning and revocation never change anything.  In every
    state and for every input [create_secure_subdomain] and
    [revoke_subdomain] answer [success = False] and leave the registry,
    the audit log, the rate windows, the clock and the entropy exactly as
    they were; revocation says "Subdomain not found" for a name that is
    not registered and reports the failed attribute lookup for one that
    is. *)
Theorem provisioning_and_revocation_change_nothing :
  forall project_id business_name subdomain_name client_ip w,
  exists created revoked,
    create_secure_subdomain project_id business_name client_ip w
    = (Ok created, w) /\
    success created = false /\
    revoke_subdomain subdomain_name client_ip w = (Ok revoked, w) /\
    rv_success revoked = false /\
    rv_error revoked
    = Some (if Dict.mem subdomain_name (active_subdomains w)
            then py "Revocation failed: " ++ no_attribute "SecurityAudit"
            else py "Subdomain not found").
Proof.
  intros project_id business_name subdomain_name client_ip w.
  rewrite create_secure_subdomain_run, revoke_subdomain_run.
  destruct (Dict.mem subdomain_name (active_subdomains w));
    eexists _, _; repeat split.
Qed.
